(** * IMDb GraphQL hash extractor: a shallow embedding of
      [scripts/imdb_hash_extractor.py] and the properties of its
      specification.

    Text is modelled by [string], one character per code point (code
    points below 256).  The script's own functions
    ([get_crawl4ai_server_url], [extract_imdb_graphql_hash], [main]) are
    definitions below; what they print is kept as a list of lines, and an
    exception is a value that a computation ends with.  The regular
    expressions of the script are values of a small pattern type run by a
    backtracking matcher that follows Python's [re.search] (leftmost
    start, greedy repetition).

    What lies outside the script is a parameter of a run: the contents
    of [constants.js] or the failure to read it, and what the crawling
    client does.  The library functions [urllib.parse.unquote],
    [json.loads], [json.dumps] and [repr] are variables of the section
    that holds the program, so the theorems hold whatever these
    functions compute; [json.loads] returns a value, raises
    [JSONDecodeError] or raises an exception of another class.
    Reference versions of the four are given for running the program on
    examples.

    Exceptions are the subclasses of [Exception]; interrupts and
    cancellation are not modelled. *)

From Stdlib Require Import Ascii String.
From stdpp Require Import base strings gmap list pretty.

Local Open Scope stdpp_scope.

(** ** Text *)

Definition squote : ascii := "'"%char.
Definition dquote : ascii := "034"%char.

Module Text.

(** [s.startswith(w)] *)
Fixpoint starts_with (w s : string) : bool :=
  match w, s with
  | EmptyString, _ => true
  | String a w', String b s' => if decide (a = b) then starts_with w' s' else false
  | String _ _, EmptyString => false
  end.

(** What follows [w] at the head of [s], when [s] starts with [w]. *)
Fixpoint strip_prefix (w s : string) : option string :=
  match w, s with
  | EmptyString, _ => Some s
  | String a w', String b s' => if decide (a = b) then strip_prefix w' s' else None
  | String _ _, EmptyString => None
  end.

(** Python's [w in s] on two strings. *)
Fixpoint contains (w s : string) : bool :=
  starts_with w s ||
  match s with
  | EmptyString => false
  | String _ s' => contains w s'
  end.

(** Every character of [s] satisfies [p]. *)
Fixpoint all_chars (p : ascii → bool) (s : string) : bool :=
  match s with
  | EmptyString => true
  | String a s' => p a && all_chars p s'
  end.

(** [sep.join(l)] *)
Fixpoint join (sep : string) (l : list string) : string :=
  match l with
  | [] => ""
  | [x] => x
  | x :: l' => x +:+ sep +:+ join sep l'
  end.

(** Characters for which [str.isspace] holds, which are the ones the
    escape [\s] of a [str] pattern matches. *)
Definition py_isspace (a : ascii) : bool :=
  let n := nat_of_ascii a in
  (Nat.leb 9 n && Nat.leb n 13) || (Nat.leb 28 n && Nat.leb n 32)
  || Nat.eqb n 133 || Nat.eqb n 160.

End Text.

(** ** Regular expressions

    The patterns of the script use literal text, character classes, the
    repetitions [*] and [+] of a class, and one capturing group. *)

Module Re.
Import Text.

Inductive citem :=
| CChr (a : ascii)      (* a character listed in the class *)
| CSpace.               (* the escape \s *)

Record cclass := Class { negated : bool; members : list citem }.

Inductive node :=
| Lit (w : string)      (* literal text *)
| One (c : cclass)      (* [...] *)
| Star (c : cclass)     (* [...]* *)
| Plus (c : cclass)     (* [...]+ *)
| GOpen                 (* ( *)
| GClose.               (* ) *)

Definition regex := list node.

Definition item_has (i : citem) (a : ascii) : bool :=
  match i with
  | CChr b => bool_decide (a = b)
  | CSpace => py_isspace a
  end.

Definition in_class (c : cclass) (a : ascii) : bool :=
  xorb (negated c) (existsb (λ i, item_has i a) (members c)).

(** The state of group 1 while a match is attempted. *)
Inductive capture :=
| CapNone                 (* the group has not been entered *)
| CapOpen (acc : string)  (* inside the group: the text consumed so far *)
| CapDone (g : string).   (* the group is closed *)

Definition push (a : ascii) (c : capture) : capture :=
  match c with
  | CapOpen acc => CapOpen (acc +:+ String a "")
  | _ => c
  end.

Fixpoint push_all (w : string) (c : capture) : capture :=
  match w with
  | EmptyString => c
  | String a w' => push_all w' (push a c)
  end.

Definition close (c : capture) : capture :=
  match c with
  | CapOpen acc => CapDone acc
  | _ => c
  end.

(** [match.group(1)] *)
Definition group1 (c : capture) : string :=
  match c with
  | CapDone g => g
  | _ => ""
  end.

(** Greedy repetition of a class followed by the rest of the pattern
    [k]: the longest run is tried first, then shorter ones. *)
Fixpoint many (p : ascii → bool) (k : capture → string → option (capture * string))
    (c : capture) (s : string) : option (capture * string) :=
  match s with
  | String a s' =>
      if p a then
        match many p k (push a c) s' with
        | Some m => Some m
        | None => k c s
        end
      else k c s
  | EmptyString => k c s
  end.

(** A match of the pattern at the head of [s]: the capture and the
    text left after the match. *)
Fixpoint match_here (r : regex) (c : capture) (s : string) : option (capture * string) :=
  match r with
  | [] => Some (c, s)
  | Lit w :: r' =>
      match strip_prefix w s with
      | Some s' => match_here r' (push_all w c) s'
      | None => None
      end
  | One cl :: r' =>
      match s with
      | String a s' => if in_class cl a then match_here r' (push a c) s' else None
      | EmptyString => None
      end
  | Star cl :: r' => many (in_class cl) (match_here r') c s
  | Plus cl :: r' =>
      match s with
      | String a s' =>
          if in_class cl a then many (in_class cl) (match_here r') (push a c) s' else None
      | EmptyString => None
      end
  | GOpen :: r' => match_here r' (CapOpen "") s
  | GClose :: r' => match_here r' (close c) s
  end.

(** [re.search(r, s)]: the match at the leftmost position that has one. *)
Fixpoint search (r : regex) (s : string) : option capture :=
  match match_here r CapNone s with
  | Some (c, _) => Some c
  | None =>
      match s with
      | String _ s' => search r s'
      | EmptyString => None
      end
  end.

(** Declarative reading of a pattern: [Matches r c s c' rest] when [r]
    can consume a prefix of [s], leaving [rest], and turns the capture
    [c] into [c']. *)
Fixpoint Matches (r : regex) (c : capture) (s : string) (c' : capture) (rest : string) : Prop :=
  match r with
  | [] => c' = c ∧ rest = s
  | Lit w :: r' => ∃ s', s = w +:+ s' ∧ Matches r' (push_all w c) s' c' rest
  | One cl :: r' =>
      ∃ a s', s = String a s' ∧ in_class cl a = true ∧ Matches r' (push a c) s' c' rest
  | Star cl :: r' =>
      ∃ run s', s = run +:+ s' ∧ all_chars (in_class cl) run = true
                ∧ Matches r' (push_all run c) s' c' rest
  | Plus cl :: r' =>
      ∃ a run s', s = String a (run +:+ s') ∧ in_class cl a = true
                ∧ all_chars (in_class cl) run = true
                ∧ Matches r' (push_all run (push a c)) s' c' rest
  | GOpen :: r' => Matches r' (CapOpen "") s c' rest
  | GClose :: r' => Matches r' (close c) s c' rest
  end.

End Re.

(** ** Python values, exceptions and effects *)

(** The values [json.loads] builds.  A float is kept as the text of its
    literal; a dict is an association list read from the front. *)
#[warnings="-register-all"]
Inductive json :=
| JNull
| JBool (b : bool)
| JInt (z : Z)
| JFloat (lexeme : string)
| JStr (s : string)
| JList (l : list json)
| JDict (kvs : list (string * json)).

Fixpoint dict_get (key : string) (kvs : list (string * json)) : option json :=
  match kvs with
  | [] => None
  | (k, v) :: kvs' => if decide (k = key) then Some v else dict_get key kvs'
  end.

(** The classes of the exceptions the script raises, catches or lets
    through; all are subclasses of [Exception].  [OtherError name] is a
    class that is none of those before it nor a subclass of
    [FileNotFoundError], [JSONDecodeError], [KeyError] or [TypeError]:
    [AttributeError], [ValueError], [RecursionError]. *)
Inductive exn_class :=
| PyException
| FileNotFoundError
| JSONDecodeError
| KeyError
| TypeError
| OtherError (name : string).

(** An exception: its class and [str(e)]. *)
Record exn := Exn { exn_class_of : exn_class; exn_str : string }.

Global Instance exn_class_eq_dec : EqDecision exn_class.
Proof. solve_decision. Defined.

Inductive outcome (A : Type) :=
| Ret (a : A)
| Raise (e : exn).
Arguments Ret {A} a.
Arguments Raise {A} e.

(** A computation that prints: the lines written to stdout, then how it
    ended. *)
Record io (A : Type) := IO { stdout : list string; result : outcome A }.
Arguments IO {A} stdout result.
Arguments stdout {A} _.
Arguments result {A} _.

Global Instance outcome_ret : MRet outcome := λ A a, Ret a.
Global Instance outcome_bind : MBind outcome := λ A B f m,
  match m with
  | Ret a => f a
  | Raise e => Raise e
  end.

Global Instance io_ret : MRet io := λ A a, IO [] (Ret a).
Global Instance io_bind : MBind io := λ A B f m,
  match result m with
  | Ret a => let k := f a in IO (stdout m ++ stdout k) (result k)
  | Raise e => IO (stdout m) (Raise e)
  end.

Definition print (line : string) : io unit := IO [line] (Ret tt).
Definition raise {A} (e : exn) : io A := IO [] (Raise e).
Definition lift {A} (o : outcome A) : io A := IO [] o.

(** [try: m except <classes> as e: h e]: exceptions whose class is not
    listed pass through; [h] chooses among several [except] clauses. *)
Definition try_except {A} (m : io A) (catches : exn_class → bool) (h : exn → io A) : io A :=
  match result m with
  | Ret a => m
  | Raise e =>
      if catches (exn_class_of e)
      then let k := h e in IO (stdout m ++ stdout k) (result k)
      else m
  end.

(** [except Exception] *)
Definition any_exception (c : exn_class) : bool := true.

(** [except (json.JSONDecodeError, KeyError)] *)
Definition decode_or_key_error (c : exn_class) : bool :=
  match c with
  | JSONDecodeError | KeyError => true
  | _ => false
  end.

(** The name Python prints for the type of a value. *)
Definition type_name (v : json) : string :=
  match v with
  | JNull => "NoneType"
  | JBool _ => "bool"
  | JInt _ => "int"
  | JFloat _ => "float"
  | JStr _ => "str"
  | JList _ => "list"
  | JDict _ => "dict"
  end.

(** [key in v] for a string [key]: membership in a dict's keys, in a
    list's elements, as a substring of a string; a [TypeError] on
    anything else. *)
Definition py_in (key : string) (v : json) : outcome bool :=
  match v with
  | JDict kvs => Ret (bool_decide (is_Some (dict_get key kvs)))
  | JList l =>
      Ret (existsb (λ x, match x with JStr s => bool_decide (s = key) | _ => false end) l)
  | JStr s => Ret (Text.contains key s)
  | _ => Raise (Exn TypeError ("argument of type '" +:+ type_name v +:+ "' is not iterable"))
  end.

(** [v[key]] for a string [key]. *)
Definition py_getitem (v : json) (key : string) : outcome json :=
  match v with
  | JDict kvs =>
      match dict_get key kvs with
      | Some x => Ret x
      | None => Raise (Exn KeyError ("'" +:+ key +:+ "'"))
      end
  | JList _ => Raise (Exn TypeError "list indices must be integers or slices, not str")
  | JStr _ => Raise (Exn TypeError "string indices must be integers, not 'str'")
  | _ => Raise (Exn TypeError ("'" +:+ type_name v +:+ "' object is not subscriptable"))
  end.

(** What [json.loads] does with a text: it returns a value, raises
    [JSONDecodeError] with a message, or raises an exception of another
    class, given by its name: [ValueError] for an integer literal of
    more than 4300 digits, [RecursionError] for nesting deeper than the
    interpreter's stack allows.  Given a text, the decoder raises no
    [KeyError], no [TypeError] and no plain [Exception]. *)
Inductive loaded :=
| Loaded (v : json)
| DecodeError (msg : string)
| OtherLoadsError (name msg : string).

Definition loads_outcome (l : loaded) : outcome json :=
  match l with
  | Loaded v => Ret v
  | DecodeError msg => Raise (Exn JSONDecodeError msg)
  | OtherLoadsError name msg => Raise (Exn (OtherError name) msg)
  end.

(** ** The outside world of one run *)

(** A captured network event: a dict from field names to text. *)
Abbreviation request := (gmap string string).

(** [CrawlResult] as far as the script reads it. *)
Record CrawlResult := {
  success : bool;
  error_message : option string;
  network_requests : option (list request)
}.

(** What [client.crawl] hands back. *)
Inductive crawl_value :=
| CrawlNone                         (* None *)
| CrawlList (l : list CrawlResult)  (* a list or tuple of results *)
| CrawlSingle (r : CrawlResult).    (* one result object *)

(** What the remote crawling service does in a run.  Leaving the
    [async with] block is taken not to raise. *)
Inductive client :=
| ClientFails (e : exn)             (* connecting or [authenticate] raises *)
| CrawlFails (e : exn)              (* [crawl] raises *)
| CrawlReturns (v : crawl_value).

(** Opening and reading [constants.js]. *)
Inductive file_read :=
| ReadOk (content : string)
| ReadFails (e : exn).

Record world := {
  constants_js : file_read;
  crawl4ai : client
}.

(** ** The script *)

Module Patterns.
Import Re.

Definition whitespace : cclass := Class false [CSpace].
Definition quote : cclass := Class false [CChr squote; CChr dquote].
Definition not_quote : cclass := Class true [CChr squote; CChr dquote].
Definition not_amp : cclass := Class true [CChr "&"%char].

(** The patterns are shown with a space between their parts and with
    [Q] for the class of the two quote characters.

    const CRAWL4AI_DOCKER_SERVER \s* = \s* Q ( [^Q]+ ) Q *)
Definition server_constant : regex :=
  [Lit "const CRAWL4AI_DOCKER_SERVER"; Star whitespace; Lit "="; Star whitespace;
   One quote; GOpen; Plus not_quote; GClose; One quote].

(** CRAWL4AI_DOCKER_SERVER [,\s]* *)
Definition server_export : regex :=
  [Lit "CRAWL4AI_DOCKER_SERVER"; Star (Class false [CChr ","%char; CSpace])].

(** Q ( [^Q]* 129\.151\.250\.86:11235 [^Q]* ) Q *)
Definition server_address : regex :=
  [One quote; GOpen; Star not_quote; Lit "129.151.250.86:11235"; Star not_quote;
   GClose; One quote].

(** operationName= ( [^&]+ ) *)
Definition operation_name : regex := [Lit "operationName="; GOpen; Plus not_amp; GClose].

(** extensions= ( [^&]+ ) *)
Definition extensions : regex := [Lit "extensions="; GOpen; Plus not_amp; GClose].

End Patterns.

(** [get_crawl4ai_server_url()], given what opening and reading
    [constants.js] does. *)
Definition get_crawl4ai_server_url (f : file_read) : io string :=
  try_except
    (content ← lift (match f with ReadOk c => Ret c | ReadFails e => Raise e end);
     (* Look for the CRAWL4AI_DOCKER_SERVER constant *)
     match Re.search Patterns.server_constant content with
     | Some m => mret (Re.group1 m)
     | None =>
         (* Fallback: look in the module.exports section *)
         match
           match Re.search Patterns.server_export content with
           | Some _ => Re.search Patterns.server_address content
           | None => None
           end
         with
         | Some m => mret (Re.group1 m)
         | None => raise (Exn PyException "CRAWL4AI_DOCKER_SERVER not found in constants.js")
         end
     end)
    any_exception
    (λ e,
       match exn_class_of e with
       | FileNotFoundError => raise (Exn PyException "constants.js file not found")
       | _ => raise (Exn PyException ("Error reading constants.js: " +:+ exn_str e))
       end).

(** Priority order for hash extraction (preferred operations first). *)
Definition priority_operations : list string :=
  ["WatchListPage"; "WatchListPageRefiner"; "PersonalizedUserData";
   "YourPredefinedListsSidebar"; "YourListsSidebar"; "YourExports"; "RVI_Items"].

(** The filter for GraphQL API requests:
    [request.get("event_type") == "request" and request.get("url") and
     "api.graphql.imdb.com" in request.get("url")]. *)
Definition is_graphql_request (request : request) : bool :=
  bool_decide (request !! "event_type" = Some "request")
  && match request !! "url" with
     | Some u => negb (bool_decide (u = "")) && Text.contains "api.graphql.imdb.com" u
     | None => false
     end.

(** The loop that fills [graphql_requests]. *)
Definition graphql_requests (network_requests : list request) : list request :=
  fold_left
    (λ graphql_requests request,
       if is_graphql_request request then graphql_requests ++ [request] else graphql_requests)
    network_requests [].

(** [request.get("url", "")] *)
Definition url_of (request : request) : string := default "" (request !! "url").

(** The loop that fills [found_operations], printed for debugging. *)
Definition found_operations (graphql_requests : list request) : list string :=
  fold_left
    (λ found_operations request,
       match Re.search Patterns.operation_name (url_of request) with
       | Some operation_match =>
           let operation_name := Re.group1 operation_match in
           if bool_decide (operation_name ∈ found_operations)
           then found_operations
           else found_operations ++ [operation_name]
       | None => found_operations
       end)
    graphql_requests [].

Definition authenticate (c : client) : io unit :=
  match c with
  | ClientFails e => raise e
  | _ => mret tt
  end.

Definition crawl (c : client) : io crawl_value :=
  match c with
  | ClientFails e | CrawlFails e => raise e
  | CrawlReturns v => mret v
  end.

(** The exit status and the output of the process. *)
Record process := { printed : list string; exit_status : Z }.

Section Script.

(** [urllib.parse.unquote] *)
Variable unquote : string → string.
(** [json.loads] *)
Variable json_loads : string → loaded.
(** [json.dumps] *)
Variable json_dumps : json → string.
(** [repr] of a value that is not a string. *)
Variable py_repr : json → string.

(** [str(v)], as an f-string formats a value. *)
Definition py_str (v : json) : string :=
  match v with
  | JStr s => s
  | _ => py_repr v
  end.

(** The body of the two [try] blocks up to the hash value: in both
    passes the source has the same statements here.  [Some h] when the
    block reaches its [return] with [h], [None] when it falls through. *)
Definition persisted_query_hash (request_url : string) : outcome (option json) :=
  if Text.contains "extensions=" request_url then
    match Re.search Patterns.extensions request_url with
    | Some extensions_match =>
        let extensions_encoded := Re.group1 extensions_match in
        let extensions_decoded := unquote extensions_encoded in
        extensions_data ← loads_outcome (json_loads extensions_decoded);
        has_query ← py_in "persistedQuery" extensions_data;
        if has_query : bool then
          persisted ← py_getitem extensions_data "persistedQuery";
          has_hash ← py_in "sha256Hash" persisted;
          if has_hash : bool then
            persisted ← py_getitem extensions_data "persistedQuery";
            hash_value ← py_getitem persisted "sha256Hash";
            mret (Some hash_value)
          else mret None
        else mret None
    | None => mret None
    end
  else mret None.

(** The inner loop of the priority pass, for one operation name. *)
Fixpoint scan_operation (operation_name : string) (graphql_requests : list request)
    : io (option json) :=
  match graphql_requests with
  | [] => mret None
  | request :: rest =>
      let request_url := url_of request in
      if Text.contains ("operationName=" +:+ operation_name) request_url then
        print ("Found " +:+ operation_name +:+ " request: " +:+ request_url);;
        returned ←
          try_except
            (found ← lift (persisted_query_hash request_url);
             match found with
             | Some hash_value =>
                 print ("Successfully extracted hash from " +:+ operation_name +:+ ": "
                        +:+ py_str hash_value);;
                 mret (Some hash_value)
             | None => mret None
             end)
            decode_or_key_error
            (λ e,
               print ("Error parsing extensions data from " +:+ operation_name +:+ ": "
                      +:+ exn_str e);;
               mret None);
        match returned with
        | Some hash_value => mret (Some hash_value)
        | None => scan_operation operation_name rest
        end
      else scan_operation operation_name rest
  end.

(** The priority pass. *)
Fixpoint scan_priority (operations : list string) (graphql_requests : list request)
    : io (option json) :=
  match operations with
  | [] => mret None
  | operation_name :: operations' =>
      returned ← scan_operation operation_name graphql_requests;
      match returned with
      | Some hash_value => mret (Some hash_value)
      | None => scan_priority operations' graphql_requests
      end
  end.

(** The fallback pass over every GraphQL request. *)
Fixpoint scan_all (graphql_requests : list request) : io (option json) :=
  match graphql_requests with
  | [] => mret None
  | request :: rest =>
      let request_url := url_of request in
      let operation_name :=
        match Re.search Patterns.operation_name request_url with
        | Some operation_match => Re.group1 operation_match
        | None => "unknown"
        end in
      returned ←
        try_except
          (found ← lift (persisted_query_hash request_url);
           match found with
           | Some hash_value =>
               print ("Found hash in " +:+ operation_name +:+ " operation: "
                      +:+ py_str hash_value);;
               mret (Some hash_value)
           | None => mret None
           end)
          decode_or_key_error
          (λ _, mret None);
      match returned with
      | Some hash_value => mret (Some hash_value)
      | None => scan_all rest
      end
  end.

(** [extract_imdb_graphql_hash(test_user_id)] in a given world. *)
Definition extract_imdb_graphql_hash (test_user_id : string) (w : world) : io json :=
  let url := "https://www.imdb.com/user/" +:+ test_user_id +:+ "/watchlist" in
  docker_server_url ←
    try_except
      (docker_server_url ← get_crawl4ai_server_url (constants_js w);
       print ("Using Crawl4AI server: " +:+ docker_server_url);;
       mret docker_server_url)
      any_exception
      (λ e, print ("Error getting server URL from constants: " +:+ exn_str e);; raise e);
  try_except
    (authenticate (crawl4ai w);;
     print ("Visiting IMDb watchlist page: " +:+ url);;
     results ← crawl (crawl4ai w);
     match results with
     | CrawlNone | CrawlList [] => raise (Exn PyException "Crawl failed - no results returned")
     | _ => mret tt
     end;;
     result ←
       match results with
       | CrawlList [] => raise (Exn PyException "Crawl returned empty results")
       | CrawlList (first :: _) => mret first
       | CrawlSingle r => mret r
       | CrawlNone =>
           raise (Exn (OtherError "AttributeError")
                      "'NoneType' object has no attribute 'success'")
       end;
     (if success result then mret tt
      else raise (Exn PyException ("Failed to load IMDb page: "
                                   +:+ default "None" (error_message result))));;
     captured ←
       match network_requests result with
       | Some (request :: rest) => mret (request :: rest)
       | Some [] | None => raise (Exn PyException "No network requests captured")
       end;
     print ("Captured " +:+ pretty (length captured) +:+ " network events");;
     let graphql_requests := graphql_requests captured in
     print ("Found " +:+ pretty (length graphql_requests) +:+ " GraphQL requests");;
     print ("Found operations: " +:+ Text.join ", " (found_operations graphql_requests));;
     returned ← scan_priority priority_operations graphql_requests;
     match returned with
     | Some hash_value => mret hash_value
     | None =>
         print "No priority operations found, checking all GraphQL requests...";;
         returned ← scan_all graphql_requests;
         match returned with
         | Some hash_value => mret hash_value
         | None =>
             raise (Exn PyException
                      "Could not extract GraphQL hash from any network requests")
         end
     end)
    any_exception
    (λ e, print ("Error during hash extraction: " +:+ exn_str e);; raise e).

(** [asyncio.run(main())]: [now] is the text of the float that
    [asyncio.get_event_loop().time()] gives when the result is built. *)
Definition main (w : world) (now : string) : process :=
  let run := extract_imdb_graphql_hash "ur195879360" w in
  match result run with
  | Ret hash_value =>
      let result :=
        JDict [("success", JBool true); ("hash", hash_value); ("timestamp", JFloat now)] in
      {| printed := stdout run ++ [json_dumps result]; exit_status := 0 |}
  | Raise e =>
      let error_result :=
        JDict [("success", JBool false); ("error", JStr (exn_str e));
               ("timestamp", JFloat now)] in
      (* sys.exit(1) *)
      {| printed := stdout run ++ [json_dumps error_result]; exit_status := 1 |}
  end.

End Script.

(** ** Reference versions of the library functions

    These follow the Python library (CPython 3.11) on text whose
    characters are below code point 256, and are what the examples below
    run with.  [Reference.unquote] keeps a decoded byte as one character
    (the library decodes the bytes as UTF-8, which is the same for bytes
    below 128).  [Reference.json_loads] refuses a [\u] escape above code
    point 255, whose character is outside the modelled range; the text
    of its decoding errors carries no position; and the nesting it
    accepts is [Reference.nesting_room], the depth left by the default
    recursion limit of 1000 under the frames the script has on the
    stack, a number that changes with the interpreter.  A float is kept
    as the text of its literal, and is shown as that text. *)

Module Reference.

Definition hex_value (a : ascii) : option N :=
  let n := N_of_ascii a in
  if ((48 <=? n) && (n <=? 57))%N then Some (n - 48)%N
  else if ((97 <=? n) && (n <=? 102))%N then Some (n - 87)%N
  else if ((65 <=? n) && (n <=? 70))%N then Some (n - 55)%N
  else None.

(** Percent-decoding: [%XY] with two hexadecimal digits is one byte, any
    other [%] stays. *)
Fixpoint unquote (s : string) : string :=
  match s with
  | EmptyString => EmptyString
  | String a s1 =>
      if bool_decide (a = "%"%char) then
        match s1 with
        | String h (String l rest) =>
            match hex_value h, hex_value l with
            | Some x, Some y => String (ascii_of_N (16 * x + y)) (unquote rest)
            | _, _ => String a (unquote s1)
            end
        | _ => String a (unquote s1)
        end
      else String a (unquote s1)
  end.

Definition is_digit (a : ascii) : bool :=
  let n := N_of_ascii a in ((48 <=? n) && (n <=? 57))%N.

(** JSON whitespace: space, tab, line feed, carriage return. *)
Definition is_json_space (a : ascii) : bool :=
  let n := N_of_ascii a in
  ((n =? 32) || (n =? 9) || (n =? 10) || (n =? 13))%N.

Fixpoint skip_space (s : string) : string :=
  match s with
  | String a s' => if is_json_space a then skip_space s' else s
  | EmptyString => s
  end.

(** The longest prefix of digits, and what follows it. *)
Fixpoint take_digits (s : string) : string * string :=
  match s with
  | String a s' =>
      if is_digit a then let '(ds, rest) := take_digits s' in (String a ds, rest)
      else (EmptyString, s)
  | EmptyString => (EmptyString, s)
  end.

Fixpoint digits_value (acc : Z) (ds : string) : Z :=
  match ds with
  | String a ds' => digits_value (10 * acc + Z.of_N (N_of_ascii a - 48)) ds'
  | EmptyString => acc
  end.

Definition refuse {A} (msg : string) : outcome A := Raise (Exn JSONDecodeError msg).

(** The longest integer literal that is converted: [int] refuses more
    digits with a [ValueError]. *)
Definition max_int_digits : nat := 4300.

Definition too_many_digits {A} (digits : nat) : outcome A :=
  Raise (Exn (OtherError "ValueError")
             ("Exceeds the limit (4300 digits) for integer string conversion: value has "
              +:+ pretty digits
              +:+ " digits; use sys.set_int_max_str_digits() to increase the limit")).

(** A number whose integer part [int_part] (with its sign) has been read:
    a fraction and an exponent make it a float. *)
Definition number_tail (negative : bool) (int_part rest : string) : outcome (json * string) :=
  let sign := if negative then "-" else "" in
  let '(frac, rest1) :=
    match rest with
    | String "." t =>
        let '(fs, r) := take_digits t in
        if bool_decide (fs = "") then ("", rest) else ("." +:+ fs, r)
    | _ => ("", rest)
    end in
  let '(exp, rest2) :=
    match rest1 with
    | String e t =>
        if bool_decide (e = "e"%char) || bool_decide (e = "E"%char) then
          let '(sg, t') :=
            match t with
            | String c u =>
                if bool_decide (c = "+"%char) || bool_decide (c = "-"%char)
                then (String c "", u) else ("", t)
            | EmptyString => ("", t)
            end in
          let '(es, r) := take_digits t' in
          if bool_decide (es = "") then ("", rest1) else (String e sg +:+ es, r)
        else ("", rest1)
    | EmptyString => ("", rest1)
    end in
  if bool_decide (frac = "") && bool_decide (exp = "")
  then
    if Nat.ltb max_int_digits (String.length int_part)
    then too_many_digits (String.length int_part)
    else Ret (JInt (if negative then - digits_value 0 int_part else digits_value 0 int_part),
              rest2)
  else Ret (JFloat (sign +:+ int_part +:+ frac +:+ exp), rest2).

Definition parse_number (s : string) : outcome (json * string) :=
  let '(negative, s1) :=
    match s with
    | String "-" t => (true, t)
    | _ => (false, s)
    end in
  match s1 with
  | String d t =>
      if bool_decide (d = "0"%char) then number_tail negative "0" t
      else if is_digit d then
        let '(ds, rest) := take_digits t in number_tail negative (String d ds) rest
      else if negative then
        match Text.strip_prefix "Infinity" s1 with
        | Some rest => Ret (JFloat "-Infinity", rest)
        | None => refuse "Expecting value"
        end
      else refuse "Expecting value"
  | EmptyString => refuse "Expecting value"
  end.

(** The inside of a string literal, after its opening quote, up to and
    without the closing quote. *)
Fixpoint scan_string (s : string) : outcome (string * string) :=
  match s with
  | EmptyString => refuse "Unterminated string starting at"
  | String a s1 =>
      if bool_decide (a = dquote) then Ret (EmptyString, s1)
      else if bool_decide (a = "\"%char) then
        match s1 with
        | String e s2 =>
            let simple (c : ascii) :=
              '(str, rest) ← scan_string s2; Ret (String c str, rest) in
            if bool_decide (e = dquote) then simple dquote
            else if bool_decide (e = "\"%char) then simple "\"%char
            else if bool_decide (e = "/"%char) then simple "/"%char
            else if bool_decide (e = "b"%char) then simple "008"%char
            else if bool_decide (e = "f"%char) then simple "012"%char
            else if bool_decide (e = "n"%char) then simple "010"%char
            else if bool_decide (e = "r"%char) then simple "013"%char
            else if bool_decide (e = "t"%char) then simple "009"%char
            else if bool_decide (e = "u"%char) then
              match s2 with
              | String h1 (String h2 (String h3 (String h4 s3))) =>
                  match hex_value h1, hex_value h2, hex_value h3, hex_value h4 with
                  | Some 0%N, Some 0%N, Some x, Some y =>
                      '(str, rest) ← scan_string s3;
                      Ret (String (ascii_of_N (16 * x + y)) str, rest)
                  | _, _, _, _ => refuse "Invalid \uXXXX escape"
                  end
              | _ => refuse "Invalid \uXXXX escape"
              end
            else refuse "Invalid \escape"
        | EmptyString => refuse "Unterminated string starting at"
        end
      else if (N_of_ascii a <? 32)%N then refuse "Invalid control character at"
      else '(str, rest) ← scan_string s1; Ret (String a str, rest)
  end.

(** [d[key] = v] on a dict: a key already present keeps its place. *)
Fixpoint dict_set (key : string) (v : json) (kvs : list (string * json))
    : list (string * json) :=
  match kvs with
  | [] => [(key, v)]
  | (k, x) :: kvs' =>
      if decide (k = key) then (k, v) :: kvs' else (k, x) :: dict_set key v kvs'
  end.

Definition too_deep {A} (what : string) : outcome A :=
  Raise (Exn (OtherError "RecursionError")
             ("maximum recursion depth exceeded while decoding a JSON " +:+ what
              +:+ " from a unicode string")).

(** One JSON value at the head of [s] and what follows it.  [room] is
    the number of arrays and objects that may still be entered; the fuel
    bounds the number of steps. *)
Fixpoint parse_value (fuel room : nat) (s : string) : outcome (json * string) :=
  match fuel with
  | O => refuse "Expecting value"
  | S fuel' =>
      match s with
      | EmptyString => refuse "Expecting value"
      | String a s' =>
          if bool_decide (a = dquote) then
            '(str, rest) ← scan_string s'; Ret (JStr str, rest)
          else if bool_decide (a = "{"%char) then
            match room with
            | O => too_deep "object"
            | S room' =>
                match skip_space s' with
                | String "}" rest => Ret (JDict [], rest)
                | body => parse_members fuel' room' body []
                end
            end
          else if bool_decide (a = "["%char) then
            match room with
            | O => too_deep "array"
            | S room' =>
                match skip_space s' with
                | String "]" rest => Ret (JList [], rest)
                | body => parse_elements fuel' room' body []
                end
            end
          else if bool_decide (a = "n"%char) then
            match Text.strip_prefix "null" s with
            | Some rest => Ret (JNull, rest)
            | None => refuse "Expecting value"
            end
          else if bool_decide (a = "t"%char) then
            match Text.strip_prefix "true" s with
            | Some rest => Ret (JBool true, rest)
            | None => refuse "Expecting value"
            end
          else if bool_decide (a = "f"%char) then
            match Text.strip_prefix "false" s with
            | Some rest => Ret (JBool false, rest)
            | None => refuse "Expecting value"
            end
          else if bool_decide (a = "N"%char) then
            match Text.strip_prefix "NaN" s with
            | Some rest => Ret (JFloat "NaN", rest)
            | None => refuse "Expecting value"
            end
          else if bool_decide (a = "I"%char) then
            match Text.strip_prefix "Infinity" s with
            | Some rest => Ret (JFloat "Infinity", rest)
            | None => refuse "Expecting value"
            end
          else parse_number s
      end
  end
with parse_elements (fuel room : nat) (s : string) (acc : list json)
    : outcome (json * string) :=
  match fuel with
  | O => refuse "Expecting value"
  | S fuel' =>
      '(v, rest) ← parse_value fuel' room s;
      match skip_space rest with
      | String "]" rest' => Ret (JList (acc ++ [v]), rest')
      | String "," rest' => parse_elements fuel' room (skip_space rest') (acc ++ [v])
      | _ => refuse "Expecting ',' delimiter"
      end
  end
with parse_members (fuel room : nat) (s : string) (acc : list (string * json))
    : outcome (json * string) :=
  match fuel with
  | O => refuse "Expecting value"
  | S fuel' =>
      match s with
      | String q s' =>
          if bool_decide (q = dquote) then
            '(key, rest) ← scan_string s';
            match skip_space rest with
            | String ":" rest1 =>
                '(v, rest2) ← parse_value fuel' room (skip_space rest1);
                match skip_space rest2 with
                | String "}" rest' => Ret (JDict (dict_set key v acc), rest')
                | String "," rest' =>
                    parse_members fuel' room (skip_space rest') (dict_set key v acc)
                | _ => refuse "Expecting ',' delimiter"
                end
            | _ => refuse "Expecting ':' delimiter"
            end
          else refuse "Expecting property name enclosed in double quotes"
      | EmptyString => refuse "Expecting property name enclosed in double quotes"
      end
  end.

(** The nesting that the stack leaves room for when the script calls
    [json.loads]. *)
Definition nesting_room : nat := 985.

Definition json_loads (s : string) : loaded :=
  match parse_value (2 * String.length s + 2) nesting_room (skip_space s) with
  | Ret (v, rest) =>
      match skip_space rest with
      | EmptyString => Loaded v
      | _ => DecodeError "Extra data"
      end
  | Raise e =>
      match exn_class_of e with
      | OtherError name => OtherLoadsError name (exn_str e)
      | _ => DecodeError (exn_str e)
      end
  end.

Definition hex_char (n : N) : ascii :=
  if (n <? 10)%N then ascii_of_N (48 + n) else ascii_of_N (87 + n).

Definition hex2 (a : ascii) : string :=
  let n := N_of_ascii a in
  String (hex_char (n / 16)) (String (hex_char (n mod 16)) "").

(** A string literal of [json.dumps], which escapes everything outside
    printable ASCII. *)
Fixpoint dumps_chars (s : string) : string :=
  match s with
  | EmptyString => EmptyString
  | String a s' =>
      let n := N_of_ascii a in
      (if bool_decide (a = dquote) then String "\" (String dquote "")
       else if bool_decide (a = "\"%char) then "\\"
       else if (n =? 10)%N then "\n"
       else if (n =? 13)%N then "\r"
       else if (n =? 9)%N then "\t"
       else if (n =? 8)%N then "\b"
       else if (n =? 12)%N then "\f"
       else if ((n <? 32) || (126 <? n))%N then "\u00" +:+ hex2 a
       else String a "") +:+ dumps_chars s'
  end.

Definition dumps_string (s : string) : string :=
  String dquote (dumps_chars s +:+ String dquote "").

(** [json.dumps] with its default separators. *)
Fixpoint json_dumps (v : json) : string :=
  match v with
  | JNull => "null"
  | JBool true => "true"
  | JBool false => "false"
  | JInt z => pretty z
  | JFloat x => x
  | JStr s => dumps_string s
  | JList l =>
      "[" +:+ Text.join ", " (map json_dumps l) +:+ "]"
  | JDict kvs =>
      "{" +:+ Text.join ", "
                (map (λ kv, dumps_string (fst kv) +:+ ": " +:+ json_dumps (snd kv)) kvs)
      +:+ "}"
  end.

(** The inside of [repr] of a string delimited by [q]. *)
Fixpoint repr_chars (q : ascii) (s : string) : string :=
  match s with
  | EmptyString => EmptyString
  | String a s' =>
      let n := N_of_ascii a in
      (if bool_decide (a = q) then String "\" (String a "")
       else if bool_decide (a = "\"%char) then "\\"
       else if (n =? 10)%N then "\n"
       else if (n =? 13)%N then "\r"
       else if (n =? 9)%N then "\t"
       else if ((n <? 32) || ((126 <? n) && (n <? 161)) || (n =? 173))%N
       then "\x" +:+ hex2 a
       else String a "") +:+ repr_chars q s'
  end.

(** [repr] of a string: single quotes, unless the text has a single
    quote and no double quote. *)
Definition repr_string (s : string) : string :=
  if Text.contains (String squote "") s && negb (Text.contains (String dquote "") s)
  then String dquote (repr_chars dquote s +:+ String dquote "")
  else String squote (repr_chars squote s +:+ String squote "").

(** [repr] of a value; a float shows as its literal. *)
Fixpoint py_repr (v : json) : string :=
  match v with
  | JNull => "None"
  | JBool true => "True"
  | JBool false => "False"
  | JInt z => pretty z
  | JFloat x => x
  | JStr s => repr_string s
  | JList l => "[" +:+ Text.join ", " (map py_repr l) +:+ "]"
  | JDict kvs =>
      "{" +:+ Text.join ", "
                (map (λ kv, repr_string (fst kv) +:+ ": " +:+ py_repr (snd kv)) kvs)
      +:+ "}"
  end.

End Reference.

(** ** The vocabulary of the specification *)

(** [w] occurs in [s]. *)
Definition substring_of (w s : string) : Prop := ∃ a b, s = a +:+ w +:+ b.

Definition is_quote (a : ascii) : Prop := a = squote ∨ a = dquote.

(** What the address pattern reads at the head of [text]: a quote
    character, [body] free of quote characters, a quote character.  The
    two quote characters need not be alike, and need not be the two ends
    of one string literal of the file. *)
Definition between_quotes_at (text body : string) : Prop :=
  ∃ q1 q2 rest,
    is_quote q1 ∧ is_quote q2 ∧
    text = String q1 (body +:+ String q2 rest) ∧
    Text.all_chars (Re.in_class Patterns.not_quote) body = true.

(** The hard-coded address of the fallback. *)
Definition hard_coded_address : string := "129.151.250.86:11235".

(** [body] is the first text between two quote characters of [content]
    that contains the address: it stands after [before], and no such
    text that starts earlier contains the address. *)
Definition first_between_quotes (content body : string) : Prop :=
  ∃ before text,
    content = before +:+ text ∧
    between_quotes_at text body ∧ substring_of hard_coded_address body ∧
    ∀ before' text' body',
      content = before' +:+ text' →
      String.length before' < String.length before →
      between_quotes_at text' body' → ¬ substring_of hard_coded_address body'.

(** The quoted strings of a file, as the specification speaks of them:
    the string literals met reading the text from its start.  A quote
    character outside a literal opens one, which the next occurrence of
    the same quote character closes; [opened] is the quote character and
    the text read so far of the literal the scan is in.  A literal left
    open at the end of the text is none. *)
Fixpoint scan_literals (opened : option (ascii * string)) (s : string) : list string :=
  match s with
  | EmptyString => []
  | String a rest =>
      match opened with
      | None =>
          if bool_decide (a = squote) || bool_decide (a = dquote)
          then scan_literals (Some (a, "")) rest
          else scan_literals None rest
      | Some (q, body) =>
          if bool_decide (a = q)
          then body :: scan_literals None rest
          else scan_literals (Some (q, body +:+ String a "")) rest
      end
  end.

Definition quoted_strings (content : string) : list string := scan_literals None content.

(** The first quoted string of the file that contains the address, as
    the specification words the fallback. *)
Definition first_quoted_string_with (address content : string) : option string :=
  List.find (Text.contains address) (quoted_strings content).

(** A captured event is a GraphQL request. *)
Definition GraphQL_request (request : request) : Prop :=
  request !! "event_type" = Some "request" ∧
  ∃ u, request !! "url" = Some u ∧ u ≠ "" ∧ substring_of "api.graphql.imdb.com" u.

(** The result the script works on: the first of a sequence, or the
    single object. *)
Definition first_result (w : world) : option CrawlResult :=
  match crawl4ai w with
  | CrawlReturns (CrawlList (r :: _)) | CrawlReturns (CrawlSingle r) => Some r
  | _ => None
  end.

(** The network events captured in a run. *)
Definition captured_events (w : world) : list request :=
  match first_result w with
  | Some r => default [] (network_requests r)
  | None => []
  end.

(** The priority-pass test of a request against an operation name. *)
Definition matches_operation (operation_name : string) (request : request) : bool :=
  Text.contains ("operationName=" +:+ operation_name) (url_of request).

Section Vocabulary.

Variable unquote : string → string.
Variable json_loads : string → loaded.

(** The URL carries the hash [h]: its extensions parameter, URL-decoded,
    is JSON for an object whose [persistedQuery] member is an object
    whose [sha256Hash] member is [h]. *)
Definition carries_hash (request_url : string) (h : json) : Prop :=
  ∃ m data query,
    Re.search Patterns.extensions request_url = Some m ∧
    json_loads (unquote (Re.group1 m)) = Loaded (JDict data) ∧
    dict_get "persistedQuery" data = Some (JDict query) ∧
    dict_get "sha256Hash" query = Some h.

(** The hash a request yields, when its [try] block reaches [return]. *)
Definition yields (request : request) : option json :=
  match persisted_query_hash unquote json_loads (url_of request) with
  | Ret (Some h) => Some h
  | _ => None
  end.

(** The first hash that the requests of a list, in order, yield. *)
Fixpoint first_yield (requests : list request) : option json :=
  match requests with
  | [] => None
  | request :: rest =>
      match yields request with
      | Some h => Some h
      | None => first_yield rest
      end
  end.

(** The hash that an operation name yields: the first among the requests
    matching it. *)
Definition operation_yield (requests : list request) (operation_name : string) : option json :=
  first_yield (List.filter (matches_operation operation_name) requests).

(** The operation name yields a hash. *)
Definition yields_for (requests : list request) (operation_name : string) : bool :=
  match operation_yield requests operation_name with
  | Some _ => true
  | None => false
  end.

(** Selection by priority as the specification words it: the hash of the
    earliest operation of the list that yields one, and otherwise the
    first hash among all the requests. *)
Definition select_hash (operations : list string) (requests : list request) : option json :=
  match List.find (yields_for requests) operations with
  | Some op => operation_yield requests op
  | None => first_yield requests
  end.

(** The [try] block of a request neither returns nor raises past its
    [except] clause: the request is skipped. *)
Definition skipped (request : request) : Prop :=
  match persisted_query_hash unquote json_loads (url_of request) with
  | Ret (Some _) => False
  | Ret None => True
  | Raise e => decode_or_key_error (exn_class_of e) = true
  end.

(** The extensions of a request make the [try] block raise nothing that
    its [except] clause lets through: [json.loads] returns or raises
    [JSONDecodeError] on the decoded parameter, and a value it returns
    is an object whose [persistedQuery] member, if any, is an object, so
    that neither membership test raises [TypeError]. *)
Definition well_shaped (request : request) : Prop :=
  ∀ m,
    Re.search Patterns.extensions (url_of request) = Some m →
    match json_loads (unquote (Re.group1 m)) with
    | Loaded v =>
        ∃ data, v = JDict data ∧
          ∀ q, dict_get "persistedQuery" data = Some q → ∃ query, q = JDict query
    | DecodeError _ => True
    | OtherLoadsError _ _ => False
    end.

(** A decoded value that is neither a string nor a container: null, a
    boolean or a number. *)
Definition scalar (v : json) : Prop :=
  match v with
  | JNull | JBool _ | JInt _ | JFloat _ => True
  | _ => False
  end.

(** The five ways extraction fails, as the specification lists them. *)
Definition reading_url_fails (w : world) : Prop :=
  ∃ e, result (get_crawl4ai_server_url (constants_js w)) = Raise e.

Definition no_results (w : world) : Prop :=
  crawl4ai w = CrawlReturns CrawlNone ∨ crawl4ai w = CrawlReturns (CrawlList []).

Definition first_result_unsuccessful (w : world) : Prop :=
  ∃ r, first_result w = Some r ∧ success r = false.

Definition nothing_captured (w : world) : Prop :=
  ∃ r, first_result w = Some r ∧
       (network_requests r = None ∨ network_requests r = Some []).

Definition no_request_carries_hash (w : world) : Prop :=
  ¬ ∃ request h,
      request ∈ captured_events w ∧ GraphQL_request request ∧
      carries_hash (url_of request) h.

Definition extraction_fails (w : world) : Prop :=
  reading_url_fails w ∨ no_results w ∨ first_result_unsuccessful w
  ∨ nothing_captured w ∨ no_request_carries_hash w.

End Vocabulary.

(** ** The results of the scans, without the lines they print *)

Section Views.

Variable unquote : string → string.
Variable json_loads : string → loaded.
Variable py_repr : json → string.

(** How scanning a list of requests ends: the first [return], or the
    first exception that the [except] clause lets through. *)
Fixpoint first_outcome (requests : list request) : outcome (option json) :=
  match requests with
  | [] => Ret None
  | request :: rest =>
      match persisted_query_hash unquote json_loads (url_of request) with
      | Ret (Some h) => Ret (Some h)
      | Ret None => first_outcome rest
      | Raise e =>
          if decode_or_key_error (exn_class_of e) then first_outcome rest else Raise e
      end
  end.

(** How the two passes over the GraphQL requests end. *)
Definition hash_scan (graphql_requests : list request) : outcome json :=
  match result (scan_priority unquote json_loads py_repr priority_operations graphql_requests) with
  | Ret (Some h) => Ret h
  | Ret None =>
      match result (scan_all unquote json_loads py_repr graphql_requests) with
      | Ret (Some h) => Ret h
      | Ret None =>
          Raise (Exn PyException "Could not extract GraphQL hash from any network requests")
      | Raise e => Raise e
      end
  | Raise e => Raise e
  end.

End Views.

(** ** Sample runs *)

Module Examples.

Definition event (event_type url : string) : request :=
  <["event_type" := event_type]> (<["url" := url]> ∅).

(** A [constants.js] that defines the constant. *)
Definition constants_text : string :=
  "const CRAWL4AI_DOCKER_SERVER = 'http://129.151.250.86:11235';".

(** A [constants.js] that only exports the name and quotes the address
    elsewhere. *)
Definition exports_text : string :=
  "module.exports = { CRAWL4AI_DOCKER_SERVER }; // 'dev', 'http://129.151.250.86:11235'".

(** A request of the operation WatchListPageRefiner whose extensions are
    the object with [persistedQuery] holding the hash [abc] and the
    version 1, percent-encoded. *)
Definition refiner_url : string :=
  "https://api.graphql.imdb.com/?operationName=WatchListPageRefiner&extensions=%7B%22persistedQuery%22%3A%7B%22sha256Hash%22%3A%22abc%22%2C%22version%22%3A1%7D%7D".

(** A request of the operation WatchListPage whose extensions are the
    object with [persistedQuery] set to null, percent-encoded. *)
Definition null_query_url : string :=
  "https://api.graphql.imdb.com/?operationName=WatchListPage&extensions=%7B%22persistedQuery%22%3Anull%7D".

(** A request of an operation outside the priority list, with the hash
    [xyz]. *)
Definition other_url : string :=
  "https://api.graphql.imdb.com/?operationName=AdvancedTitleSearch&extensions=%7B%22persistedQuery%22%3A%7B%22sha256Hash%22%3A%22xyz%22%2C%22version%22%3A1%7D%7D".

(** A [constants.js] that exports the name, in which the address stands
    in a comment between two string literals and then in the second
    literal. *)
Definition comment_text : string :=
  "const a = 'x'; /* 129.151.250.86:11235 */ const b = 'http://129.151.250.86:11235'; module.exports = { CRAWL4AI_DOCKER_SERVER: b };".

(** A request of the operation WatchListPage whose extensions are the
    number 5. *)
Definition number_url : string :=
  "https://api.graphql.imdb.com/?operationName=WatchListPage&extensions=5".

(** A request of the operation WatchListPage whose extensions are an
    integer literal of 4301 digits. *)
Definition long_number_url : string :=
  "https://api.graphql.imdb.com/?operationName=WatchListPage&extensions="
  +:+ String.concat "" (replicate 4301 "7").

(** A run in which the crawl succeeds and captures [events]. *)
Definition crawled (events : list request) : world :=
  {| constants_js := ReadOk constants_text;
     crawl4ai :=
       CrawlReturns
         (CrawlSingle {| success := true; error_message := None;
                         network_requests := Some events |}) |}.

(** A run in which [constants.js] does not exist. *)
Definition missing_file : world :=
  {| constants_js := ReadFails (Exn FileNotFoundError "[Errno 2] No such file or directory");
     crawl4ai := CrawlReturns CrawlNone |}.

(** A capture in which a request with a null [persistedQuery] comes
    before a request that carries a hash. *)
Definition null_then_refiner : world :=
  crawled [event "request" null_query_url; event "request" refiner_url].

(** The script run with the reference library functions. *)
Definition extract (w : world) : io json :=
  extract_imdb_graphql_hash Reference.unquote Reference.json_loads Reference.py_repr
    "ur195879360" w.

Definition run_main (w : world) (now : string) : process :=
  main Reference.unquote Reference.json_loads Reference.json_dumps Reference.py_repr w now.

End Examples.

(** * Proofs *)

#[local] Arguments String.append !_ _ / : simpl nomatch.

Module TextFacts.
Import Text.

Lemma append_nil_r s : s +:+ "" = s.
Proof. induction s as [|a s IH]; simpl; [done|by rewrite IH]. Qed.

Lemma append_assoc a b c : (a +:+ b) +:+ c = a +:+ b +:+ c.
Proof. induction a as [|x a IH]; simpl; [done|by rewrite IH]. Qed.

Lemma strip_prefix_iff w s rest : strip_prefix w s = Some rest ↔ s = w +:+ rest.
Proof.
  revert s. induction w as [|a w IH]; intros s; simpl.
  - split; [by intros [= ->]|by intros ->].
  - destruct s as [|b s]; [done|].
    destruct (decide (a = b)) as [->|Hne].
    + rewrite IH. split; [by intros ->|by intros [= ->]].
    + split; [done|]. intros [= ? ?]. done.
Qed.

Lemma strip_prefix_app w rest : strip_prefix w (w +:+ rest) = Some rest.
Proof. by apply strip_prefix_iff. Qed.

Lemma starts_with_iff w s : starts_with w s = true ↔ ∃ rest, s = w +:+ rest.
Proof.
  revert s. induction w as [|a w IH]; intros s; simpl.
  - split; [by eexists|done].
  - destruct s as [|b s]; [split; [done|by intros [? ?]]|].
    destruct (decide (a = b)) as [->|Hne].
    + rewrite IH. split; intros [rest H]; exists rest; [by rewrite H|by injection H].
    + split; [done|]. intros [rest [= ? ?]]. done.
Qed.

Lemma contains_iff w s : contains w s = true ↔ substring_of w s.
Proof.
  unfold substring_of. induction s as [|c s IH].
  - simpl. rewrite orb_false_r, starts_with_iff. split.
    + intros [rest H]. exists "", rest. done.
    + intros [a [b H]]. destruct a; [by exists b|done].
  - cbn [contains]. rewrite orb_true_iff, starts_with_iff, IH. split.
    + intros [[rest H]|[a [b H]]].
      * exists "", rest. done.
      * exists (String c a), b. simpl. by rewrite H.
    + intros [a [b H]]. destruct a as [|x a].
      * left. by exists b.
      * right. injection H as _ H. by exists a, b.
Qed.

Lemma all_chars_app p a b : all_chars p (a +:+ b) = all_chars p a && all_chars p b.
Proof. induction a as [|x a IH]; simpl; [done|]. by rewrite IH, andb_assoc. Qed.

Lemma substring_of_trans a b c : substring_of a b → substring_of b c → substring_of a c.
Proof.
  intros [x [y ->]] [u [v ->]]. exists (u +:+ x), (y +:+ v).
  by rewrite !append_assoc.
Qed.

End TextFacts.

Module ReFacts.
Import Text Re TextFacts.

Lemma push_all_open w acc : push_all w (CapOpen acc) = CapOpen (acc +:+ w).
Proof.
  revert acc. induction w as [|a w IH]; intros acc; simpl.
  - by rewrite append_nil_r.
  - rewrite IH, append_assoc. done.
Qed.

Lemma many_sound p k c s m :
  many p k c s = Some m →
  ∃ run rest, s = run +:+ rest ∧ all_chars p run = true ∧ k (push_all run c) rest = Some m.
Proof.
  revert c. induction s as [|a s IH]; intros c; simpl.
  - intros H. by exists "", "".
  - destruct (p a) eqn:Hp.
    + destruct (many p k (push a c) s) as [m'|] eqn:Hm.
      * intros [= <-]. destruct (IH _ Hm) as (run & rest & -> & Hall & Hk).
        exists (String a run), rest. simpl. by rewrite Hp.
      * intros H. by exists "", (String a s).
    + intros H. by exists "", (String a s).
Qed.

Lemma many_complete p k c run rest m :
  all_chars p run = true → k (push_all run c) rest = Some m →
  is_Some (many p k c (run +:+ rest)).
Proof.
  revert c. induction run as [|a run IH]; intros c; simpl.
  - intros _ Hk. destruct rest as [|b rest]; simpl; [by eexists|].
    destruct (p b); [|by eexists].
    destruct (many p k (push b c) rest); by eexists.
  - intros [Hp Hall]%andb_true_iff Hk. rewrite Hp.
    destruct (IH _ Hall Hk) as [m' ->]. by eexists.
Qed.

(** When the rest of the pattern accepts anything, the repetition takes
    the longest run. *)
Lemma many_longest p k c s m :
  (∀ c' s', k c' s' ≠ None) → many p k c s = Some m →
  ∃ run rest,
    s = run +:+ rest ∧ all_chars p run = true ∧ k (push_all run c) rest = Some m
    ∧ (rest = "" ∨ ∃ b rest', rest = String b rest' ∧ p b = false).
Proof.
  intros Hk. revert c. induction s as [|a s IH]; intros c; simpl.
  - intros H. exists "", "". auto.
  - destruct (p a) eqn:Hp.
    + destruct (many p k (push a c) s) as [m'|] eqn:Hm.
      * intros [= <-]. destruct (IH _ Hm) as (run & rest & -> & Hall & Hr & Hend).
        exists (String a run), rest. simpl. rewrite Hp. auto.
      * destruct (k (push a c) s) as [m'|] eqn:Hks; [|by destruct (Hk (push a c) s)].
        destruct (many_complete p k (push a c) "" s m' eq_refl Hks) as [m'' Hm''].
        simpl in Hm''. congruence.
    + intros H. exists "", (String a s). repeat split; eauto.
Qed.

Lemma match_here_sound r c s c' rest :
  match_here r c s = Some (c', rest) → Matches r c s c' rest.
Proof.
  revert c s. induction r as [|n r IH]; intros c s; simpl.
  - by intros [= -> ->].
  - destruct n as [w|cl|cl|cl| |].
    + destruct (strip_prefix w s) as [s'|] eqn:Hs; [|done].
      apply strip_prefix_iff in Hs. intros H. exists s'. auto.
    + destruct s as [|a s]; [done|]. destruct (in_class cl a) eqn:Hc; [|done].
      intros H. exists a, s. auto.
    + intros (run & s' & -> & Hall & Hk)%many_sound. exists run, s'. auto.
    + destruct s as [|a s]; [done|]. destruct (in_class cl a) eqn:Hc; [|done].
      intros (run & s' & -> & Hall & Hk)%many_sound. exists a, run, s'. auto.
    + apply IH.
    + apply IH.
Qed.

Lemma match_here_complete r c s c' rest :
  Matches r c s c' rest → is_Some (match_here r c s).
Proof.
  revert c s. induction r as [|n r IH]; intros c s; simpl.
  - by eexists.
  - destruct n as [w|cl|cl|cl| |].
    + intros (s' & -> & H). rewrite strip_prefix_app. eauto.
    + intros (a & s' & -> & Hc & H). rewrite Hc. eauto.
    + intros (run & s' & -> & Hall & H). destruct (IH _ _ H) as [m Hm].
      eapply many_complete; eauto.
    + intros (a & run & s' & -> & Hc & Hall & H). rewrite Hc.
      destruct (IH _ _ H) as [m Hm]. eapply many_complete; eauto.
    + apply IH.
    + apply IH.
Qed.

Lemma search_unfold r s :
  search r s =
  match match_here r CapNone s with
  | Some (c, _) => Some c
  | None => match s with String _ s' => search r s' | EmptyString => None end
  end.
Proof. by destruct s. Qed.

(** [search] returns the match at the leftmost position that has one. *)
Lemma search_first r before text c rest :
  match_here r CapNone text = Some (c, rest) →
  (∀ before' text', before +:+ text = before' +:+ text' →
     String.length before' < String.length before →
     match_here r CapNone text' = None) →
  search r (before +:+ text) = Some c.
Proof.
  intros Hm. induction before as [|a before IH]; intros Hfirst.
  - simpl. rewrite search_unfold, Hm. done.
  - rewrite search_unfold.
    rewrite (Hfirst "" (String a before +:+ text)); [|done|simpl; lia].
    simpl. apply IH. intros before' text' Heq Hlt.
    apply (Hfirst (String a before')); simpl; [by rewrite Heq|lia].
Qed.

Lemma search_found r s c :
  search r s = Some c →
  ∃ before text rest,
    s = before +:+ text ∧ match_here r CapNone text = Some (c, rest) ∧
    ∀ before' text', s = before' +:+ text' →
      String.length before' < String.length before →
      match_here r CapNone text' = None.
Proof.
  induction s as [|a s IH]; rewrite search_unfold.
  - destruct (match_here r CapNone "") as [[c0 rest]|] eqn:Hm; [|done].
    intros [= ->]. exists "", "", rest. repeat split; [done|]. simpl. lia.
  - destruct (match_here r CapNone (String a s)) as [[c0 rest]|] eqn:Hm.
    + intros [= ->]. exists "", (String a s), rest. repeat split; [done|]. simpl. lia.
    + intros (before & text & rest & -> & Hh & Hfirst)%IH.
      exists (String a before), text, rest. repeat split; [done|].
      intros before' text' Heq Hlt. destruct before' as [|b before'].
      * simpl in Heq. by subst text'.
      * simpl in Heq. injection Heq as -> Heq. apply (Hfirst before'); [done|].
        simpl in Hlt. lia.
Qed.

Lemma search_none r s :
  search r s = None ↔ ∀ before text, s = before +:+ text → match_here r CapNone text = None.
Proof.
  split.
  - induction s as [|a s IH]; rewrite search_unfold.
    + destruct (match_here r CapNone "") as [[c0 rest]|] eqn:Hm; [done|].
      intros _ before text Heq. destruct before; [|done]. simpl in Heq. by subst.
    + destruct (match_here r CapNone (String a s)) as [[c0 rest]|] eqn:Hm; [done|].
      intros Hs before text Heq. destruct before as [|b before].
      * simpl in Heq. by subst.
      * simpl in Heq. injection Heq as -> Heq. by apply (IH Hs before).
  - intros Hall. destruct (search r s) as [c|] eqn:Hs; [|done].
    destruct (search_found _ _ _ Hs) as (before & text & rest & Heq & Hm & _).
    rewrite (Hall _ _ Heq) in Hm. done.
Qed.

End ReFacts.

Module PatternFacts.
Import Text Re TextFacts ReFacts.

Lemma in_quote_iff a : in_class Patterns.quote a = true ↔ is_quote a.
Proof.
  unfold in_class, is_quote; cbn.
  destruct (bool_decide_reflect (a = squote)), (bool_decide_reflect (a = dquote));
    cbn; intuition (discriminate || congruence).
Qed.

Lemma in_not_quote_iff a : in_class Patterns.not_quote a = true ↔ ¬ is_quote a.
Proof.
  unfold in_class, is_quote; cbn.
  destruct (bool_decide_reflect (a = squote)), (bool_decide_reflect (a = dquote));
    cbn; intuition (discriminate || congruence).
Qed.

Lemma between_quotes_unique text b1 b2 :
  between_quotes_at text b1 → between_quotes_at text b2 → b1 = b2.
Proof.
  intros (q1 & q2 & r1 & _ & Hq2 & -> & Hb1) (q1' & q2' & r2 & _ & Hq2' & [= _ Heq] & Hb2).
  clear q1 q1'. revert b2 Heq Hb2. induction b1 as [|x b1 IH]; intros b2 Heq Hb2.
  - destruct b2 as [|y b2]; [done|]. simpl in Heq. injection Heq as -> _.
    simpl in Hb2. apply andb_true_iff in Hb2 as [Hy _].
    by apply in_not_quote_iff in Hy.
  - simpl in Hb1. apply andb_true_iff in Hb1 as [Hx Hb1].
    destruct b2 as [|y b2].
    + simpl in Heq. injection Heq as -> _. by apply in_not_quote_iff in Hx.
    + simpl in Heq, Hb2. injection Heq as -> Heq.
      apply andb_true_iff in Hb2 as [_ Hb2]. f_equal. by apply IH.
Qed.

(** What a match of the address pattern at the head of [text] is. *)
Lemma server_address_sound text c rest :
  match_here Patterns.server_address CapNone text = Some (c, rest) →
  ∃ body, between_quotes_at text body ∧ substring_of hard_coded_address body
          ∧ c = CapDone body.
Proof.
  intros H%match_here_sound.
  unfold Patterns.server_address in H. cbn [Matches] in H.
  destruct H as (q1 & s1 & -> & Hq1 & run & s2 & -> & Hrun & s3 & -> & run2 & s4 & ->
                 & Hrun2 & q2 & s5 & -> & Hq2 & -> & ->).
  rewrite !push_all_open. cbn [push close].
  exists (run +:+ hard_coded_address +:+ run2). split; [|split].
  - exists q1, q2, s5. rewrite !in_quote_iff in *. repeat split; [done|done| |].
    + by rewrite !append_assoc.
    + rewrite !all_chars_app, Hrun, Hrun2. done.
  - by exists run, run2.
  - by rewrite append_assoc.
Qed.

Lemma server_address_complete text body :
  between_quotes_at text body → substring_of hard_coded_address body →
  ∃ rest, match_here Patterns.server_address CapNone text = Some (CapDone body, rest).
Proof.
  intros Hq Hsub.
  assert (∃ c rest, Matches Patterns.server_address CapNone text c rest) as (c0 & r0 & HM).
  { destruct Hq as (q1 & q2 & rest & Hq1 & Hq2 & -> & Hbody).
    destruct Hsub as (a & b & ->).
    rewrite !all_chars_app in Hbody.
    apply andb_true_iff in Hbody as [Ha Hb]. apply andb_true_iff in Hb as [_ Hb].
    eexists _, rest. unfold Patterns.server_address. cbn [Matches].
    exists q1, ((a +:+ hard_coded_address +:+ b) +:+ String q2 rest).
    split; [done|]. split; [by apply in_quote_iff|].
    exists a, (hard_coded_address +:+ b +:+ String q2 rest).
    split; [by rewrite !append_assoc|]. split; [done|].
    exists (b +:+ String q2 rest). split; [done|].
    exists b, (String q2 rest). split; [done|]. split; [done|].
    exists q2, rest. split; [done|]. split; [by apply in_quote_iff|]. done. }
  destruct (match_here_complete _ _ _ _ _ HM) as [[c rest] Hm].
  exists rest. destruct (server_address_sound _ _ _ Hm) as (body' & Hq' & _ & ->).
  by rewrite (between_quotes_unique _ _ _ Hq Hq').
Qed.

(** The export pattern matches wherever the name of the constant
    stands. *)
Lemma server_export_found content :
  substring_of "CRAWL4AI_DOCKER_SERVER" content →
  is_Some (search Patterns.server_export content).
Proof.
  intros (a & b & ->).
  destruct (search Patterns.server_export (a +:+ "CRAWL4AI_DOCKER_SERVER" +:+ b)) eqn:Hs;
    [by eexists|].
  pose proof (proj1 (search_none _ _) Hs a _ eq_refl) as Hnone.
  assert (is_Some (match_here Patterns.server_export CapNone ("CRAWL4AI_DOCKER_SERVER" +:+ b)))
    as [m Hm].
  { eapply (match_here_complete _ _ _ CapNone b).
    unfold Patterns.server_export. cbn [Matches].
    exists b. split; [done|]. exists "", b. done. }
  congruence.
Qed.

Lemma server_export_sound content c :
  search Patterns.server_export content = Some c →
  substring_of "CRAWL4AI_DOCKER_SERVER" content.
Proof.
  intros (before & text & rest & -> & Hm & _)%search_found.
  apply match_here_sound in Hm.
  unfold Patterns.server_export in Hm. cbn [Matches] in Hm.
  destruct Hm as (s' & -> & _). by exists before, s'.
Qed.

(** What the pattern of the constant captures: the text between the
    quotes that follow the leftmost definition of the constant. *)
Lemma server_constant_capture content m :
  search Patterns.server_constant content = Some m →
  ∃ before ws1 ws2 q1 q2 value rest,
    content = before +:+ "const CRAWL4AI_DOCKER_SERVER" +:+ ws1 +:+ "=" +:+ ws2
                     +:+ String q1 (value +:+ String q2 rest)
    ∧ all_chars (in_class Patterns.whitespace) ws1 = true
    ∧ all_chars (in_class Patterns.whitespace) ws2 = true
    ∧ is_quote q1 ∧ is_quote q2 ∧ value ≠ ""
    ∧ all_chars (in_class Patterns.not_quote) value = true
    ∧ m = CapDone value.
Proof.
  intros (before & text & rest & -> & Hm & _)%search_found.
  apply match_here_sound in Hm.
  unfold Patterns.server_constant in Hm. cbn [Matches] in Hm.
  destruct Hm as (s1 & -> & ws1 & s2 & -> & Hws1 & s3 & -> & ws2 & s4 & -> & Hws2
                  & q1 & s5 & -> & Hq1 & a & run & s6 & -> & Ha & Hrun
                  & q2 & s7 & -> & Hq2 & -> & ->).
  exists before, ws1, ws2, q1, q2, (String a run), s7.
  cbn [push]. rewrite push_all_open. cbn [push close].
  rewrite in_quote_iff in Hq1, Hq2. repeat split; try done.
  cbn [all_chars]. by rewrite Ha, Hrun.
Qed.

Lemma in_not_amp_iff a : in_class Patterns.not_amp a = true ↔ a ≠ "&"%char.
Proof.
  unfold in_class; cbn. destruct (bool_decide_reflect (a = "&"%char)); cbn;
    intuition (discriminate || congruence).
Qed.

(** What the extensions pattern captures: the text that follows the
    leftmost [extensions=] followed by a value, up to the next [&] or to
    the end of the URL. *)
Lemma extensions_capture url m :
  search Patterns.extensions url = Some m →
  ∃ before value rest,
    url = before +:+ "extensions=" +:+ value +:+ rest
    ∧ value ≠ "" ∧ all_chars (in_class Patterns.not_amp) value = true
    ∧ (rest = "" ∨ ∃ rest', rest = String "&" rest')
    ∧ m = CapDone value.
Proof.
  intros (before & text & rest & -> & Hm & _)%search_found.
  unfold Patterns.extensions in Hm. cbn [match_here] in Hm.
  destruct (strip_prefix "extensions=" text) as [s1|] eqn:Hs; [|done].
  apply strip_prefix_iff in Hs as ->.
  destruct s1 as [|a s1]; [done|].
  destruct (in_class Patterns.not_amp a) eqn:Ha; [|done].
  apply many_longest in Hm as (run & rest' & -> & Hrun & Hk & Hend); [|done].
  cbn [match_here push] in Hk. rewrite push_all_open in Hk. injection Hk as <- <-.
  exists before, (String a run), rest'. cbn [close].
  repeat split; try done.
  - cbn [all_chars]. by rewrite Ha, Hrun.
  - destruct Hend as [->|(b & rest'' & -> & Hb)]; [by left|right].
    exists rest''. f_equal. destruct (bool_decide_reflect (b = "&"%char)) as [->|Hne]; [done|].
    apply in_not_amp_iff in Hne. congruence.
Qed.

End PatternFacts.

Module IOFacts.

Lemma result_bind {A B} (m : io A) (f : A → io B) :
  result (m ≫= f) = result m ≫= (λ a, result (f a)).
Proof. unfold mbind, io_bind, outcome_bind. by destruct (result m). Qed.

Lemma result_print {B} line (f : unit → io B) : result (print line ≫= f) = result (f tt).
Proof. done. Qed.

Lemma result_try_pass {A} (m : io A) catches h :
  (∀ e, result (h e) = Raise e) → result (try_except m catches h) = result m.
Proof.
  intros Hh. unfold try_except. destruct (result m) as [a|e] eqn:Hm; [done|].
  destruct (catches (exn_class_of e)); [|done]. simpl. apply Hh.
Qed.

End IOFacts.

Section ScanFacts.
Import IOFacts Text TextFacts.

Variable unquote : string → string.
Variable json_loads : string → loaded.
Variable py_repr : json → string.

Local Abbreviation hash_of := (persisted_query_hash unquote json_loads).
Local Abbreviation outcome_of := (first_outcome unquote json_loads).
Local Abbreviation yield_of := (first_yield unquote json_loads).
Local Abbreviation operation_pass := (scan_operation unquote json_loads py_repr).
Local Abbreviation priority_pass := (scan_priority unquote json_loads py_repr).
Local Abbreviation fallback_pass := (scan_all unquote json_loads py_repr).

Lemma result_try_block (url : string) (k : json → io (option json)) (h : exn → io (option json)) :
  (∀ v, result (k v) = Ret (Some v)) → (∀ e, result (h e) = Ret None) →
  result (try_except
            (found ← lift (hash_of url);
             match found with Some v => k v | None => mret None end)
            decode_or_key_error h)
  = match hash_of url with
    | Ret (Some v) => Ret (Some v)
    | Ret None => Ret None
    | Raise e => if decode_or_key_error (exn_class_of e) then Ret None else Raise e
    end.
Proof.
  intros Hk Hh. unfold try_except. rewrite result_bind. unfold lift. cbn [result].
  destruct (hash_of url) as [[v|]|e]; cbn.
  - by rewrite Hk.
  - done.
  - destruct (decode_or_key_error (exn_class_of e)); cbn; [apply Hh|done].
Qed.

Lemma result_scan_operation op requests :
  result (operation_pass op requests) = outcome_of (List.filter (matches_operation op) requests).
Proof.
  induction requests as [|request rest IH]; [done|].
  cbn [scan_operation List.filter]. unfold matches_operation at 1.
  destruct (contains ("operationName=" +:+ op) (url_of request)); [|apply IH].
  cbn [first_outcome].
  rewrite result_print, result_bind, result_try_block; [|done|done].
  destruct (hash_of (url_of request)) as [[v|]|e]; cbn; [done|apply IH|].
  destruct (decode_or_key_error (exn_class_of e)); cbn; [apply IH|done].
Qed.

Lemma result_scan_all requests : result (fallback_pass requests) = outcome_of requests.
Proof.
  induction requests as [|request rest IH]; [done|].
  cbn [scan_all first_outcome].
  rewrite result_bind, result_try_block; [|done|done].
  destruct (hash_of (url_of request)) as [[v|]|e]; cbn; [done|apply IH|].
  destruct (decode_or_key_error (exn_class_of e)); cbn; [apply IH|done].
Qed.

Lemma result_scan_priority_cons op ops requests :
  result (priority_pass (op :: ops) requests) =
  match outcome_of (List.filter (matches_operation op) requests) with
  | Ret (Some h) => Ret (Some h)
  | Ret None => result (priority_pass ops requests)
  | Raise e => Raise e
  end.
Proof.
  cbn [scan_priority]. rewrite result_bind, result_scan_operation.
  by destruct (outcome_of _) as [[v|]|e].
Qed.

Lemma first_outcome_yield requests h :
  outcome_of requests = Ret (Some h) → yield_of requests = Some h.
Proof.
  induction requests as [|request rest IH]; [done|].
  cbn [first_outcome first_yield]. unfold yields.
  destruct (hash_of (url_of request)) as [[v|]|e]; [by intros [= ->]|done|].
  destruct (decode_or_key_error (exn_class_of e)); [done|done].
Qed.

Lemma first_outcome_none requests :
  outcome_of requests = Ret None → yield_of requests = None.
Proof.
  induction requests as [|request rest IH]; [done|].
  cbn [first_outcome first_yield]. unfold yields.
  destruct (hash_of (url_of request)) as [[v|]|e]; [done|done|].
  destruct (decode_or_key_error (exn_class_of e)); [done|done].
Qed.

End ScanFacts.

Section ExtractFacts.
Import IOFacts Text TextFacts ReFacts.

Variable unquote : string → string.
Variable json_loads : string → loaded.
Variable py_repr : json → string.

Lemma extensions_found url m :
  Re.search Patterns.extensions url = Some m → contains "extensions=" url = true.
Proof.
  intros (before & text & rest & -> & Hm & _)%search_found.
  apply match_here_sound in Hm. unfold Patterns.extensions in Hm. cbn [Re.Matches] in Hm.
  destruct Hm as (s' & -> & _). apply contains_iff. by exists before, s'.
Qed.

Lemma persisted_query_hash_carries url h :
  persisted_query_hash unquote json_loads url = Ret (Some h) ↔
  carries_hash unquote json_loads url h.
Proof.
  unfold persisted_query_hash, carries_hash. split.
  - destruct (contains "extensions=" url); [|done].
    destruct (Re.search Patterns.extensions url) as [m|]; [|done].
    destruct (json_loads (unquote (Re.group1 m))) as [v|msg|name msg] eqn:Hv; [|done|done].
    destruct v as [| | | | |l|data]; try done; cbn.
    + destruct (contains _ _); done.
    + destruct (existsb _ l); done.
    + destruct (dict_get "persistedQuery" data) as [q|] eqn:Hq; [|done].
      rewrite bool_decide_eq_true_2 by eauto. cbn.
      destruct q as [| | | | |l|query]; try done; cbn.
      * destruct (contains _ _); done.
      * destruct (existsb _ l); done.
      * destruct (dict_get "sha256Hash" query) as [x|] eqn:Hx.
        -- rewrite bool_decide_eq_true_2 by eauto. cbn. intros [= ->]. eauto 10.
        -- rewrite bool_decide_eq_false_2 by (by intros [? ?]). done.
  - intros (m & data & query & Hm & Hv & Hq & Hx).
    rewrite (extensions_found _ _ Hm), Hm, Hv. cbn. rewrite Hq.
    rewrite bool_decide_eq_true_2 by eauto. cbn. rewrite Hx.
    rewrite bool_decide_eq_true_2 by eauto. done.
Qed.

Lemma result_extract tid w :
  result (extract_imdb_graphql_hash unquote json_loads py_repr tid w) =
  match result (get_crawl4ai_server_url (constants_js w)) with
  | Raise e => Raise e
  | Ret _ =>
      match crawl4ai w with
      | ClientFails e | CrawlFails e => Raise e
      | CrawlReturns CrawlNone | CrawlReturns (CrawlList []) =>
          Raise (Exn PyException "Crawl failed - no results returned")
      | CrawlReturns (CrawlList (r :: _)) | CrawlReturns (CrawlSingle r) =>
          if success r then
            match network_requests r with
            | Some (q :: l) => hash_scan unquote json_loads py_repr (graphql_requests (q :: l))
            | _ => Raise (Exn PyException "No network requests captured")
            end
          else Raise (Exn PyException ("Failed to load IMDb page: "
                                       +:+ default "None" (error_message r)))
      end
  end.
Proof.
  unfold extract_imdb_graphql_hash.
  rewrite result_bind. rewrite !result_try_pass by (intros; reflexivity).
  rewrite (result_bind (get_crawl4ai_server_url (constants_js w))).
  destruct (result (get_crawl4ai_server_url (constants_js w))) as [u|e]; [|reflexivity].
  cbn [mbind outcome_bind]. rewrite result_print. cbn [mret io_ret result].
  assert (∀ r : CrawlResult,
    result
      ((if success r then mret ()
        else raise (Exn PyException ("Failed to load IMDb page: "
                                     +:+ default "None" (error_message r))));;
       captured ←
         match network_requests r with
         | Some (request :: rest) => mret (request :: rest)
         | Some [] | None => raise (Exn PyException "No network requests captured")
         end;
       print ("Captured " +:+ pretty (length captured) +:+ " network events");;
       print ("Found " +:+ pretty (length (graphql_requests captured)) +:+ " GraphQL requests");;
       print ("Found operations: " +:+ join ", " (found_operations (graphql_requests captured)));;
       returned ← scan_priority unquote json_loads py_repr priority_operations
                    (graphql_requests captured);
       match returned with
       | Some hash_value => mret hash_value
       | None =>
           print "No priority operations found, checking all GraphQL requests...";;
           returned0 ← scan_all unquote json_loads py_repr (graphql_requests captured);
           match returned0 with
           | Some hash_value => mret hash_value
           | None =>
               raise (Exn PyException
                        "Could not extract GraphQL hash from any network requests")
           end
       end)
    = if success r then
        match network_requests r with
        | Some (q :: l) => hash_scan unquote json_loads py_repr (graphql_requests (q :: l))
        | _ => Raise (Exn PyException "No network requests captured")
        end
      else Raise (Exn PyException ("Failed to load IMDb page: "
                                   +:+ default "None" (error_message r)))) as Hrest.
  { intros r. rewrite result_bind. destruct (success r); [|done].
    cbn [mret io_ret result mbind outcome_bind]. rewrite result_bind.
    destruct (network_requests r) as [[|q l]|]; [done| |done].
    cbn [mret io_ret result mbind outcome_bind].
    rewrite !result_print, result_bind. unfold hash_scan.
    destruct (result (scan_priority _ _ _ _ _)) as [[h|]|e]; [done| |done].
    cbn [mbind outcome_bind]. rewrite result_print, result_bind.
    by destruct (result (scan_all _ _ _ _)) as [[h|]|e]. }
  rewrite result_bind.
  destruct (crawl4ai w) as [e|e|v]; [done|done|].
  cbn [authenticate mret io_ret result mbind outcome_bind].
  rewrite result_print, result_bind. cbn [crawl mret io_ret result mbind outcome_bind].
  rewrite result_bind.
  destruct v as [|[|r l]|r]; [done|done| |].
  - cbn [mret io_ret result mbind outcome_bind]. rewrite result_bind.
    cbn [mret io_ret result mbind outcome_bind]. apply Hrest.
  - cbn [mret io_ret result mbind outcome_bind]. rewrite result_bind.
    cbn [mret io_ret result mbind outcome_bind]. apply Hrest.
Qed.

End ExtractFacts.

Section FilterFacts.
Import Text TextFacts.

Lemma is_graphql_request_iff (request : request) :
  is_graphql_request request = true ↔ GraphQL_request request.
Proof.
  unfold is_graphql_request, GraphQL_request.
  rewrite andb_true_iff, bool_decide_eq_true. split.
  - intros [Ht Hu]. split; [done|].
    destruct (request !! "url") as [u|]; [|done].
    apply andb_true_iff in Hu as [Hne Hc]. exists u.
    rewrite negb_true_iff, bool_decide_eq_false in Hne.
    by rewrite <- contains_iff.
  - intros [Ht (u & -> & Hne & Hc)]. split; [done|].
    rewrite andb_true_iff, negb_true_iff, bool_decide_eq_false.
    by rewrite contains_iff.
Qed.

Lemma graphql_requests_acc (network acc : list request) :
  fold_left
    (λ graphql_requests request,
       if is_graphql_request request then graphql_requests ++ [request] else graphql_requests)
    network acc
  = acc ++ List.filter is_graphql_request network.
Proof.
  revert acc. induction network as [|request network IH]; intros acc; simpl.
  - by rewrite app_nil_r.
  - rewrite IH. destruct (is_graphql_request request); [|done].
    by rewrite <- app_assoc.
Qed.

Lemma graphql_requests_filter (network : list request) :
  graphql_requests network = List.filter is_graphql_request network.
Proof. unfold graphql_requests. by rewrite graphql_requests_acc. Qed.

Lemma elem_of_graphql_requests (network : list request) (request : request) :
  request ∈ graphql_requests network ↔ request ∈ network ∧ GraphQL_request request.
Proof.
  rewrite graphql_requests_filter, !list_elem_of_In, filter_In.
  by rewrite is_graphql_request_iff.
Qed.

End FilterFacts.

Section SelectFacts.
Import IOFacts Text TextFacts.

Variable unquote : string → string.
Variable json_loads : string → loaded.
Variable py_repr : json → string.

Local Abbreviation hash_of := (persisted_query_hash unquote json_loads).
Local Abbreviation outcome_of := (first_outcome unquote json_loads).
Local Abbreviation yield_of := (first_yield unquote json_loads).
Local Abbreviation op_yield := (operation_yield unquote json_loads).
Local Abbreviation select := (select_hash unquote json_loads).
Local Abbreviation yields_op := (yields_for unquote json_loads).
Local Abbreviation priority_pass := (scan_priority unquote json_loads py_repr).
Local Abbreviation fallback_pass := (scan_all unquote json_loads py_repr).
Local Abbreviation two_passes := (hash_scan unquote json_loads py_repr).

Lemma first_yield_elem (requests : list request) h :
  yield_of requests = Some h →
  ∃ request, request ∈ requests ∧ hash_of (url_of request) = Ret (Some h).
Proof.
  induction requests as [|request rest IH]; [done|].
  cbn [first_yield]. unfold yields.
  destruct (hash_of (url_of request)) as [[v|]|e] eqn:Hp.
  - intros [= ->]. exists request. split; [left|done].
  - intros (r & Hr & Hh)%IH. exists r. split; [by right|done].
  - intros (r & Hr & Hh)%IH. exists r. split; [by right|done].
Qed.

Lemma first_yield_none (requests : list request) :
  yield_of requests = None ↔
  ∀ request h, request ∈ requests → hash_of (url_of request) ≠ Ret (Some h).
Proof.
  induction requests as [|request rest IH].
  - split; [|done]. intros _ request h Hin. by apply elem_of_nil in Hin.
  - cbn [first_yield]. unfold yields. split.
    + destruct (hash_of (url_of request)) as [[v|]|e] eqn:Hp; [done| |];
        intros Hn r h [->|Hr]%elem_of_cons; try (by rewrite Hp);
        by apply (proj1 IH Hn).
    + intros Hall. destruct (hash_of (url_of request)) as [[v|]|e] eqn:Hp.
      * exfalso. apply (Hall request v); [left|done].
      * apply IH. intros r h Hr. apply Hall. by right.
      * apply IH. intros r h Hr. apply Hall. by right.
Qed.

(** The priority pass returns what selection by priority says, and
    returns nothing only when no operation of the list yields a hash. *)
Lemma scan_priority_select ops (requests : list request) :
  match result (priority_pass ops requests) with
  | Ret (Some h) =>
      ∃ op, List.find (yields_op requests) ops = Some op
            ∧ op_yield requests op = Some h
  | Ret None => List.find (yields_op requests) ops = None
  | Raise _ => True
  end.
Proof.
  induction ops as [|op ops IH]; [done|].
  rewrite result_scan_priority_cons. cbn [List.find].
  unfold yields_for at 1 3. unfold operation_yield at 1 3.
  destruct (first_outcome _ _ (List.filter (matches_operation op) requests))
    as [[h|]|e] eqn:Ho.
  - apply first_outcome_yield in Ho. rewrite Ho. exists op.
    unfold operation_yield. by rewrite Ho.
  - apply first_outcome_none in Ho. rewrite Ho. apply IH.
  - done.
Qed.

Lemma hash_scan_select (requests : list request) h :
  two_passes requests = Ret h → select priority_operations requests = Some h.
Proof.
  unfold hash_scan, select_hash.
  pose proof (scan_priority_select priority_operations requests) as Hp.
  destruct (result (priority_pass priority_operations requests)) as [[v|]|e]; [| |done].
  - intros [= ->]. destruct Hp as (op & -> & Hy). done.
  - rewrite Hp, result_scan_all.
    destruct (first_outcome _ _ requests) as [[v|]|e] eqn:Ho; [|done|done].
    intros [= ->]. by apply first_outcome_yield.
Qed.

Lemma select_hash_elem ops (requests : list request) h :
  select ops requests = Some h →
  ∃ request, request ∈ requests ∧ hash_of (url_of request) = Ret (Some h).
Proof.
  unfold select_hash.
  destruct (List.find _ ops) as [op|].
  - unfold op_yield. intros (r & Hr & Hh)%first_yield_elem. exists r. split; [|done].
    apply list_elem_of_In in Hr. apply filter_In in Hr as [Hr _]. by apply list_elem_of_In.
  - apply first_yield_elem.
Qed.

(** On well-shaped requests nothing passes the [except] clause. *)
Lemma well_shaped_outcome (request : request) :
  well_shaped unquote json_loads request →
  match hash_of (url_of request) with
  | Ret _ => True
  | Raise e => exn_class_of e = JSONDecodeError
  end.
Proof.
  intros Hw. unfold persisted_query_hash.
  destruct (contains "extensions=" (url_of request)); [|done].
  destruct (Re.search Patterns.extensions (url_of request)) as [m|] eqn:Hm; [|done].
  specialize (Hw m Hm).
  destruct (json_loads (unquote (Re.group1 m))) as [v|msg|name msg]; [|done|done].
  destruct Hw as (data & -> & Hq). cbn.
  destruct (dict_get "persistedQuery" data) as [q|] eqn:Hd.
  - rewrite bool_decide_eq_true_2 by eauto. destruct (Hq q eq_refl) as [query ->]. cbn.
    destruct (dict_get "sha256Hash" query) as [x|] eqn:Hx.
    + rewrite bool_decide_eq_true_2 by eauto. done.
    + rewrite bool_decide_eq_false_2 by (by intros [? ?]). done.
  - rewrite bool_decide_eq_false_2 by (by intros [? ?]). done.
Qed.

Lemma first_outcome_well_shaped (requests : list request) :
  Forall (well_shaped unquote json_loads) requests →
  outcome_of requests = Ret (yield_of requests).
Proof.
  induction 1 as [|request rest Hw _ IH]; [done|].
  cbn [first_outcome first_yield]. unfold yields.
  pose proof (well_shaped_outcome _ Hw) as Ho.
  destruct (hash_of (url_of request)) as [[v|]|e]; [done|done|].
  by rewrite Ho.
Qed.

Lemma Forall_filter_well_shaped f (requests : list request) :
  Forall (well_shaped unquote json_loads) requests →
  Forall (well_shaped unquote json_loads) (List.filter f requests).
Proof.
  rewrite !Forall_forall. intros H r Hr. apply H.
  apply list_elem_of_In in Hr. apply filter_In in Hr as [Hr _]. by apply list_elem_of_In.
Qed.

Lemma scan_priority_well_shaped ops (requests : list request) :
  Forall (well_shaped unquote json_loads) requests →
  result (priority_pass ops requests) =
  Ret (match List.find (yields_op requests) ops with
       | Some op => op_yield requests op
       | None => None
       end).
Proof.
  intros Hw. induction ops as [|op ops IH]; [done|].
  rewrite result_scan_priority_cons. cbn [List.find].
  rewrite first_outcome_well_shaped by by apply Forall_filter_well_shaped.
  unfold yields_for at 1. unfold operation_yield at 1 2.
  destruct (first_yield _ _ (List.filter (matches_operation op) requests))
    as [h|] eqn:Hy; [by rewrite Hy|exact IH].
Qed.

(** On well-shaped requests the two passes compute selection by
    priority. *)
Lemma hash_scan_well_shaped (requests : list request) :
  Forall (well_shaped unquote json_loads) requests →
  two_passes requests =
  match select priority_operations requests with
  | Some h => Ret h
  | None => Raise (Exn PyException "Could not extract GraphQL hash from any network requests")
  end.
Proof.
  intros Hw. unfold hash_scan, select_hash.
  rewrite scan_priority_well_shaped by done.
  destruct (List.find _ priority_operations) as [op|] eqn:Hf.
  - apply find_some in Hf as [_ Hs]. unfold yields_for in Hs.
    by destruct (op_yield requests op).
  - rewrite result_scan_all, first_outcome_well_shaped by done.
    by destruct (yield_of requests).
Qed.

Lemma select_hash_none (requests : list request) :
  select priority_operations requests = None → yield_of requests = None.
Proof.
  unfold select_hash.
  destruct (List.find _ priority_operations) as [op|] eqn:Hf; [|done].
  apply find_some in Hf as [_ Hs]. unfold yields_for in Hs.
  by destruct (op_yield requests op).
Qed.

End SelectFacts.

(** ** The top level *)

Section MainFacts.

Variable unquote : string → string.
Variable json_loads : string → loaded.
Variable json_dumps : json → string.
Variable py_repr : json → string.

Local Abbreviation run_extract := (extract_imdb_graphql_hash unquote json_loads py_repr "ur195879360").
Local Abbreviation run_main := (main unquote json_loads json_dumps py_repr).

(** C1: when [extract_imdb_graphql_hash] raises [e], [main] prints, after
    what the extraction printed, one line: the JSON text of an object
    whose [success] is false and whose [error] is [str(e)]; the exit
    status is 1. *)
Theorem main_reports_failure (w : world) (now : string) (e : exn) :
  result (run_extract w) = Raise e →
  ∃ error_result,
    printed (run_main w now) = stdout (run_extract w) ++ [json_dumps (JDict error_result)]
    ∧ dict_get "success" error_result = Some (JBool false)
    ∧ dict_get "error" error_result = Some (JStr (exn_str e))
    ∧ exit_status (run_main w now) = 1%Z.
Proof.
  intros He. unfold main. rewrite He. cbn [printed exit_status].
  eexists. split; [reflexivity|]. repeat split.
Qed.

(** C2: when [extract_imdb_graphql_hash] returns [h], [main] prints, after
    what the extraction printed, one line: the JSON text of an object
    whose [success] is true and whose [hash] is [h]; the exit status
    is 0. *)
Theorem main_reports_hash (w : world) (now : string) (h : json) :
  result (run_extract w) = Ret h →
  ∃ result,
    printed (run_main w now) = stdout (run_extract w) ++ [json_dumps (JDict result)]
    ∧ dict_get "success" result = Some (JBool true)
    ∧ dict_get "hash" result = Some h
    ∧ exit_status (run_main w now) = 0%Z.
Proof.
  intros Hh. unfold main. rewrite Hh. cbn [printed exit_status].
  eexists. split; [reflexivity|]. repeat split.
Qed.

End MainFacts.

Lemma main_reports_failure_witness :
  ∃ error_result,
    printed (Examples.run_main Examples.missing_file "1.5")
      = stdout (Examples.extract Examples.missing_file)
        ++ [Reference.json_dumps (JDict error_result)]
    ∧ dict_get "success" error_result = Some (JBool false)
    ∧ dict_get "error" error_result = Some (JStr "constants.js file not found")
    ∧ exit_status (Examples.run_main Examples.missing_file "1.5") = 1%Z.
Proof.
  exact (main_reports_failure Reference.unquote Reference.json_loads Reference.json_dumps
           Reference.py_repr Examples.missing_file "1.5"
           (Exn PyException "constants.js file not found") eq_refl).
Defined.

Lemma main_reports_hash_witness :
  ∃ result,
    printed (Examples.run_main
               (Examples.crawled [Examples.event "request" Examples.refiner_url]) "1.5")
      = stdout (Examples.extract
                  (Examples.crawled [Examples.event "request" Examples.refiner_url]))
        ++ [Reference.json_dumps (JDict result)]
    ∧ dict_get "success" result = Some (JBool true)
    ∧ dict_get "hash" result = Some (JStr "abc")
    ∧ exit_status (Examples.run_main
                     (Examples.crawled [Examples.event "request" Examples.refiner_url]) "1.5")
      = 0%Z.
Proof.
  apply (main_reports_hash Reference.unquote Reference.json_loads Reference.json_dumps
           Reference.py_repr
           (Examples.crawled [Examples.event "request" Examples.refiner_url]) "1.5"
           (JStr "abc")).
  vm_compute. reflexivity.
Defined.

Section ClaimFacts.
Import IOFacts Text TextFacts ReFacts PatternFacts.

Variable unquote : string → string.
Variable json_loads : string → loaded.
Variable py_repr : json → string.

Local Abbreviation hash_of := (persisted_query_hash unquote json_loads).
Local Abbreviation run_extract := (extract_imdb_graphql_hash unquote json_loads py_repr).
Local Abbreviation two_passes := (hash_scan unquote json_loads py_repr).
Local Abbreviation carries := (carries_hash unquote json_loads).
Local Abbreviation select := (select_hash unquote json_loads).
Local Abbreviation shaped := (well_shaped unquote json_loads).
Local Abbreviation fails := (extraction_fails unquote json_loads).

(** A run that returns went through every check and ended in the scan of
    the GraphQL requests. *)
Lemma extract_returns_inv tid (w : world) h :
  result (run_extract tid w) = Ret h →
  ∃ u r, result (get_crawl4ai_server_url (constants_js w)) = Ret u
         ∧ first_result w = Some r ∧ success r = true
         ∧ network_requests r = Some (captured_events w)
         ∧ captured_events w ≠ []
         ∧ two_passes (graphql_requests (captured_events w)) = Ret h.
Proof.
  rewrite result_extract. unfold captured_events, first_result.
  destruct (result (get_crawl4ai_server_url (constants_js w))) as [u|e]; [|done].
  destruct (crawl4ai w) as [e|e|[|[|r l]|r]]; try done;
    (destruct (success r) eqn:Hs; [|done];
     destruct (network_requests r) as [[|q l']|] eqn:Hn; try done;
     intros Hh; exists u, r; by rewrite Hn).
Qed.

Lemma extract_scans tid (w : world) u r :
  result (get_crawl4ai_server_url (constants_js w)) = Ret u →
  first_result w = Some r → success r = true → captured_events w ≠ [] →
  result (run_extract tid w) = two_passes (graphql_requests (captured_events w)).
Proof.
  rewrite result_extract. unfold captured_events, first_result. intros ->.
  destruct (crawl4ai w) as [e|e|[|[|r' l]|r']]; try done;
    (intros [= ->] ->; by destruct (network_requests r) as [[|q l']|]).
Qed.

(** A returned value comes from a captured GraphQL request that carries
    it. *)
Lemma extract_returns_carrier tid (w : world) (h : json) :
  result (run_extract tid w) = Ret h →
  ∃ request,
    request ∈ captured_events w ∧ GraphQL_request request
    ∧ carries (url_of request) h.
Proof.
  intros (u & r & _ & _ & _ & _ & _ & Hs)%extract_returns_inv.
  apply hash_scan_select in Hs. apply select_hash_elem in Hs as (request & Hin & Hp).
  apply elem_of_graphql_requests in Hin as [Hin Hg].
  exists request. split; [done|]. split; [done|].
  by apply persisted_query_hash_carries.
Qed.

(** C3: a returned value is the [sha256Hash] member of the
    [persistedQuery] object of the JSON obtained by URL-decoding the
    capture of the extensions pattern in the URL of a captured GraphQL
    request. *)
Theorem returned_hash_is_carried tid (w : world) (h : json) :
  result (run_extract tid w) = Ret h →
  ∃ request,
    request ∈ captured_events w ∧ GraphQL_request request
    ∧ carries (url_of request) h.
Proof. apply extract_returns_carrier. Qed.


(** C8: a request whose URL contains operationName=WatchListPageRefiner
    passes the test of the entry WatchListPage, and when it heads the
    GraphQL requests and yields a hash the priority pass returns that
    hash in the WatchListPage step. *)
Theorem refiner_request_taken_as_watchlistpage (head : request) (rest : list request)
    (h : json) :
  substring_of "operationName=WatchListPageRefiner" (url_of head) →
  hash_of (url_of head) = Ret (Some h) →
  matches_operation "WatchListPage" head = true
  ∧ scan_priority unquote json_loads py_repr priority_operations (head :: rest)
    = IO ["Found WatchListPage request: " +:+ url_of head;
          "Successfully extracted hash from WatchListPage: " +:+ py_str py_repr h]
         (Ret (Some h)).
Proof.
  intros Hsub Hp.
  assert (matches_operation "WatchListPage" head = true) as Hm.
  { apply contains_iff. eapply substring_of_trans; [|exact Hsub].
    by exists "", "Refiner". }
  split; [done|]. unfold matches_operation in Hm.
  unfold priority_operations. cbn [scan_priority scan_operation].
  rewrite Hm, Hp. reflexivity.
Qed.

(** Every way of failing that the specification lists makes the
    extraction raise. *)
Lemma extraction_fails_raises tid (w : world) :
  fails w → ∃ e, result (run_extract tid w) = Raise e.
Proof.
  intros [Hf|[Hf|[Hf|[Hf|Hf]]]].
  - destruct Hf as [e He]. rewrite result_extract, He. by exists e.
  - rewrite result_extract.
    destruct (result (get_crawl4ai_server_url (constants_js w))); [|by eexists].
    destruct Hf as [-> | ->]; by eexists.
  - destruct Hf as (r & Hr & Hs). rewrite result_extract. unfold first_result in Hr.
    destruct (result (get_crawl4ai_server_url (constants_js w))); [|by eexists].
    destruct (crawl4ai w) as [e|e|[|[|r' l]|r']]; try done;
      injection Hr as ->; rewrite Hs; by eexists.
  - destruct Hf as (r & Hr & Hn). rewrite result_extract. unfold first_result in Hr.
    destruct (result (get_crawl4ai_server_url (constants_js w))); [|by eexists].
    destruct (crawl4ai w) as [e|e|[|[|r' l]|r']]; try done;
      injection Hr as ->; (destruct (success r); [|by eexists]);
      destruct Hn as [-> | ->]; by eexists.
  - destruct (result (run_extract tid w)) as [h|e] eqn:Hr; [|by exists e].
    exfalso. apply Hf. apply extract_returns_carrier in Hr as (request & ? & ? & ?).
    by exists request, h.
Qed.

(** When every captured GraphQL request is well shaped, the extraction
    raises only in the ways the specification lists. *)
Lemma extraction_raises_fails tid (w : world) e :
  Forall shaped (graphql_requests (captured_events w)) →
  result (run_extract tid w) = Raise e → fails w.
Proof.
  intros Hw Hr. unfold extraction_fails.
  destruct (result (get_crawl4ai_server_url (constants_js w))) as [u|e'] eqn:Hu;
    [|left; by exists e'].
  right.
  assert (captured_events w = [] ∨ captured_events w ≠ []) as [Hc|Hc]
    by (destruct (captured_events w); [by left|by right]).
  { right. right. right. intros (request & h & Hin & _). rewrite Hc in Hin.
    by apply elem_of_nil in Hin. }
  destruct (first_result w) as [r|] eqn:Hf;
    [|unfold captured_events in Hc; by rewrite Hf in Hc].
  destruct (success r) eqn:Hs; [|right; left; by exists r].
  right. right. right. intros (request & h & Hin & Hg & Hcar).
  rewrite (extract_scans tid w u r Hu Hf Hs Hc), hash_scan_well_shaped in Hr by done.
  destruct (select priority_operations (graphql_requests (captured_events w)))
    as [v|] eqn:Hsel; [done|].
  apply select_hash_none in Hsel.
  apply (proj1 (first_yield_none _ _ _) Hsel request h).
  - by apply elem_of_graphql_requests.
  - by apply persisted_query_hash_carries.
Qed.


End ClaimFacts.

Section LookupFacts.
Import IOFacts Text TextFacts ReFacts PatternFacts.

(** C5: a captured event is among the GraphQL requests exactly when its
    [event_type] is [request] and it has a non-empty [url] that contains
    [api.graphql.imdb.com]; any other event can be taken out of the
    capture without changing the GraphQL requests. *)
Theorem graphql_requests_exact (network : list request) :
  (∀ request,
     request ∈ graphql_requests network ↔ request ∈ network ∧ GraphQL_request request)
  ∧ (∀ before event after,
       network = before ++ event :: after → ¬ GraphQL_request event →
       graphql_requests network = graphql_requests (before ++ after)).
Proof.
  split; [intros request; apply elem_of_graphql_requests|].
  intros before event after -> Hn. rewrite !graphql_requests_filter, !List.filter_app.
  cbn [List.filter]. destruct (is_graphql_request event) eqn:He; [|done].
  by apply is_graphql_request_iff in He.
Qed.

(** C6: when the pattern of the constant matches the contents of
    [constants.js], the function returns the capture of its first match;
    when the file cannot be read, or neither that pattern nor the
    fallback finds a URL, it raises an [Exception]. *)
Theorem server_url_lookup (f : file_read) :
  (∀ content m,
     f = ReadOk content → Re.search Patterns.server_constant content = Some m →
     get_crawl4ai_server_url f = IO [] (Ret (Re.group1 m)))
  ∧ (∀ e, f = ReadFails e →
       ∃ msg, get_crawl4ai_server_url f = IO [] (Raise (Exn PyException msg)))
  ∧ (∀ content,
       f = ReadOk content → Re.search Patterns.server_constant content = None →
       Re.search Patterns.server_export content = None
       ∨ Re.search Patterns.server_address content = None →
       ∃ msg, get_crawl4ai_server_url f = IO [] (Raise (Exn PyException msg))).
Proof.
  split; [|split].
  - intros content m -> Hm. unfold get_crawl4ai_server_url. cbn. by rewrite Hm.
  - intros e ->. unfold get_crawl4ai_server_url. cbn.
    destruct (exn_class_of e); by eexists.
  - intros content -> Hm Hf. unfold get_crawl4ai_server_url. cbn. rewrite Hm.
    destruct Hf as [-> | Ha]; [by eexists|].
    destruct (Re.search Patterns.server_export content); rewrite ?Ha; by eexists.
Qed.

Example server_url_found :
  get_crawl4ai_server_url (ReadOk Examples.constants_text)
  = IO [] (Ret "http://129.151.250.86:11235").
Proof. vm_compute. reflexivity. Qed.

Example server_url_file_missing :
  get_crawl4ai_server_url (constants_js Examples.missing_file)
  = IO [] (Raise (Exn PyException "constants.js file not found")).
Proof. vm_compute. reflexivity. Qed.

Example server_url_not_defined :
  get_crawl4ai_server_url (ReadOk "module.exports = {};")
  = IO [] (Raise (Exn PyException
                    "Error reading constants.js: CRAWL4AI_DOCKER_SERVER not found in constants.js")).
Proof. vm_compute. reflexivity. Qed.

(** The address pattern finds the first text between two quote
    characters that contains the address. *)
Lemma search_address_first content body :
  Re.search Patterns.server_address content = Some (Re.CapDone body) →
  first_between_quotes content body.
Proof.
  intros (before & text & rest & -> & Hm & Hfirst)%search_found.
  destruct (server_address_sound _ _ _ Hm) as (body' & Hq & Hsub & [= ->]).
  exists before, text. repeat split; [done|done|].
  intros before' text' body'' Heq Hlt Hq' Hsub'.
  destruct (server_address_complete _ _ Hq' Hsub') as [rest' Hm'].
  by rewrite (Hfirst _ _ Heq Hlt) in Hm'.
Qed.

Lemma search_address_found content body :
  first_between_quotes content body →
  Re.search Patterns.server_address content = Some (Re.CapDone body).
Proof.
  intros (before & text & -> & Hq & Hsub & Hfirst).
  destruct (server_address_complete _ _ Hq Hsub) as [rest Hm].
  apply (search_first _ _ _ _ rest Hm). intros before' text' Heq Hlt.
  destruct (Re.match_here Patterns.server_address Re.CapNone text') as [[c' rest']|] eqn:Hm';
    [|done].
  destruct (server_address_sound _ _ _ Hm') as (body' & Hq' & Hsub' & _).
  by destruct (Hfirst _ _ _ Heq Hlt Hq' Hsub').
Qed.


End LookupFacts.



Section SkipFacts.
Import IOFacts Text TextFacts ReFacts.

Variable unquote : string → string.
Variable json_loads : string → loaded.
Variable py_repr : json → string.

Local Abbreviation hash_of := (persisted_query_hash unquote json_loads).
Local Abbreviation outcome_of := (first_outcome unquote json_loads).
Local Abbreviation skips := (skipped unquote json_loads).
Local Abbreviation priority_pass := (scan_priority unquote json_loads py_repr).
Local Abbreviation two_passes := (hash_scan unquote json_loads py_repr).

Lemma first_outcome_skip (before after : list request) (skip : request) :
  skips skip →
  outcome_of (before ++ skip :: after) = outcome_of (before ++ after).
Proof.
  intros Hs. induction before as [|r before IH]; cbn [app first_outcome].
  - unfold skipped in Hs.
    destruct (hash_of (url_of skip)) as [[h|]|e]; [done|done|by rewrite Hs].
  - by rewrite IH.
Qed.

Lemma result_scan_priority_skip ops (before after : list request) (skip : request) :
  skips skip →
  result (priority_pass ops (before ++ skip :: after))
  = result (priority_pass ops (before ++ after)).
Proof.
  intros Hs. induction ops as [|op ops IH]; [done|].
  rewrite !result_scan_priority_cons, IH, !List.filter_app. cbn [List.filter].
  destruct (matches_operation op skip); [|done].
  by rewrite first_outcome_skip.
Qed.

(** A skipped request does not change how the two passes end. *)
Lemma hash_scan_skip (before after : list request) (skip : request) :
  skips skip → two_passes (before ++ skip :: after) = two_passes (before ++ after).
Proof.
  intros Hs. unfold hash_scan.
  by rewrite result_scan_priority_skip, !result_scan_all, first_outcome_skip.
Qed.

(** Requests that are skipped: no extensions parameter, extensions that
    are not JSON, an object without [persistedQuery], an object whose
    [persistedQuery] is an object without [sha256Hash]. *)
Lemma malformed_request_skipped (r : request) :
  ¬ substring_of "extensions=" (url_of r)
  ∨ (∃ m msg, Re.search Patterns.extensions (url_of r) = Some m
              ∧ json_loads (unquote (Re.group1 m)) = DecodeError msg)
  ∨ (∃ m data, Re.search Patterns.extensions (url_of r) = Some m
               ∧ json_loads (unquote (Re.group1 m)) = Loaded (JDict data)
               ∧ (dict_get "persistedQuery" data = None
                  ∨ ∃ query, dict_get "persistedQuery" data = Some (JDict query)
                             ∧ dict_get "sha256Hash" query = None)) →
  skips r.
Proof.
  unfold skipped, persisted_query_hash.
  intros [Hn|[(m & msg & Hm & Hj)|(m & data & Hm & Hj & Hd)]].
  - destruct (contains "extensions=" (url_of r)) eqn:Hc; [|done].
    by apply contains_iff in Hc.
  - rewrite (extensions_found _ _ Hm), Hm, Hj. done.
  - rewrite (extensions_found _ _ Hm), Hm, Hj. cbn.
    destruct Hd as [Hd|(query & Hd & Hq)]; rewrite Hd.
    + rewrite bool_decide_eq_false_2 by (by intros [? ?]). done.
    + rewrite bool_decide_eq_true_2 by eauto. cbn. rewrite Hq.
      rewrite bool_decide_eq_false_2 by (by intros [? ?]). done.
Qed.

End SkipFacts.

(** ** Runs of the script *)

Lemma returned_hash_is_carried_witness :
  ∃ request,
    request ∈ captured_events
                (Examples.crawled [Examples.event "request" Examples.refiner_url])
    ∧ GraphQL_request request
    ∧ carries_hash Reference.unquote Reference.json_loads (url_of request) (JStr "abc").
Proof.
  apply (returned_hash_is_carried Reference.unquote Reference.json_loads Reference.py_repr
           "ur195879360"
           (Examples.crawled [Examples.event "request" Examples.refiner_url]) (JStr "abc")).
  vm_compute. reflexivity.
Defined.

Lemma refiner_is_well_shaped :
  well_shaped Reference.unquote Reference.json_loads
    (Examples.event "request" Examples.refiner_url).
Proof.
  intros m Hm. vm_compute in Hm. injection Hm as <-.
  set (l := Reference.json_loads _). vm_compute in l. subst l. cbv beta iota.
  eexists. split; [reflexivity|]. intros q Hq. vm_compute in Hq. injection Hq as <-.
  by eexists.
Defined.

Lemma other_is_well_shaped :
  well_shaped Reference.unquote Reference.json_loads
    (Examples.event "request" Examples.other_url).
Proof.
  intros m Hm. vm_compute in Hm. injection Hm as <-.
  set (l := Reference.json_loads _). vm_compute in l. subst l. cbv beta iota.
  eexists. split; [reflexivity|]. intros q Hq. vm_compute in Hq. injection Hq as <-.
  by eexists.
Defined.


Lemma refiner_request_taken_as_watchlistpage_witness :
  matches_operation "WatchListPage" (Examples.event "request" Examples.refiner_url) = true
  ∧ scan_priority Reference.unquote Reference.json_loads Reference.py_repr
      priority_operations
      [Examples.event "request" Examples.refiner_url;
       Examples.event "request" Examples.other_url]
    = IO ["Found WatchListPage request: "
            +:+ url_of (Examples.event "request" Examples.refiner_url);
          "Successfully extracted hash from WatchListPage: "
            +:+ py_str Reference.py_repr (JStr "abc")]
         (Ret (Some (JStr "abc"))).
Proof.
  apply (refiner_request_taken_as_watchlistpage Reference.unquote Reference.json_loads
           Reference.py_repr (Examples.event "request" Examples.refiner_url)
           [Examples.event "request" Examples.other_url] (JStr "abc")).
  - exists "https://api.graphql.imdb.com/?",
      "&extensions=%7B%22persistedQuery%22%3A%7B%22sha256Hash%22%3A%22abc%22%2C%22version%22%3A1%7D%7D".
    vm_compute. reflexivity.
  - vm_compute. reflexivity.
Defined.

(** The fallback pass alone takes the first hash in capture order,
    whatever the operation. *)
Example fallback_takes_first_hash :
  result (Examples.extract
            (Examples.crawled [Examples.event "request" Examples.other_url]))
  = Ret (JStr "xyz").
Proof. vm_compute. reflexivity. Qed.

(** C7: in the run [Examples.null_then_refiner] none of the five failures
    of the specification holds (the URL is read, the crawl returns a
    successful result with two captured GraphQL requests, the second of
    which carries the hash [abc]), and yet the extraction raises: the
    first request's [persistedQuery] is null and the membership test on
    it raises a [TypeError] that the [except] clause does not list. *)
Theorem extraction_raises_outside_listed_failures :
  result (Examples.extract Examples.null_then_refiner)
  = Raise (Exn TypeError "argument of type 'NoneType' is not iterable")
  ∧ ¬ extraction_fails Reference.unquote Reference.json_loads Examples.null_then_refiner.
Proof.
  split; [vm_compute; reflexivity|].
  intros [[e He]|[[Hn|Hn]|[(r & Hr & Hs)|[(r & Hr & Hn)|Hn]]]].
  - vm_compute in He. discriminate.
  - discriminate.
  - discriminate.
  - injection Hr as <-. discriminate.
  - injection Hr as <-. destruct Hn; discriminate.
  - apply Hn. exists (Examples.event "request" Examples.refiner_url), (JStr "abc").
    split; [|split].
    + right. left.
    + split; [vm_compute; reflexivity|].
      exists Examples.refiner_url. split; [vm_compute; reflexivity|]. split; [discriminate|].
      apply TextFacts.contains_iff. vm_compute. reflexivity.
    + apply persisted_query_hash_carries. vm_compute. reflexivity.
Qed.

(** C10: the extensions of the first request of
    [Examples.null_then_refiner] decode to an object that has no
    [sha256Hash] key, its [persistedQuery] being null.  Without that
    request the extraction returns the hash [abc] of the well-formed
    request; with it, the extraction is aborted by a [TypeError].  The
    same happens when the extensions are the number 5. *)
Theorem malformed_request_aborts_extraction :
  Reference.json_loads (Reference.unquote "%7B%22persistedQuery%22%3Anull%7D")
  = Loaded (JDict [("persistedQuery", JNull)])
  ∧ result (Examples.extract
              (Examples.crawled [Examples.event "request" Examples.refiner_url]))
    = Ret (JStr "abc")
  ∧ result (Examples.extract Examples.null_then_refiner)
    = Raise (Exn TypeError "argument of type 'NoneType' is not iterable")
  ∧ result (Examples.extract
              (Examples.crawled [Examples.event "request" Examples.number_url;
                                 Examples.event "request" Examples.refiner_url]))
    = Raise (Exn TypeError "argument of type 'int' is not iterable").
Proof. repeat split; vm_compute; reflexivity. Qed.

(** * Further properties of the script *)

Section LookupExtras.
Import IOFacts Text TextFacts ReFacts PatternFacts.

Lemma get_url_silent (f : file_read) : stdout (get_crawl4ai_server_url f) = [].
Proof.
  unfold get_crawl4ai_server_url. destruct f as [content|e]; cbn.
  - destruct (Re.search Patterns.server_constant content); [done|].
    destruct (Re.search Patterns.server_export content); [|done].
    by destruct (Re.search Patterns.server_address content).
  - by destruct (exn_class_of e).
Qed.

(** X1: [get_crawl4ai_server_url] prints nothing, and whatever goes
    wrong inside it reaches the caller as a plain [Exception]: no
    [FileNotFoundError] or other class leaves the function. *)
Theorem server_url_raises_plain_exception (f : file_read) :
  stdout (get_crawl4ai_server_url f) = []
  ∧ ∀ e, result (get_crawl4ai_server_url f) = Raise e → exn_class_of e = PyException.
Proof.
  split; [apply get_url_silent|]. intros e0.
  unfold get_crawl4ai_server_url. destruct f as [content|e]; cbn.
  - destruct (Re.search Patterns.server_constant content); [done|].
    destruct (Re.search Patterns.server_export content).
    + destruct (Re.search Patterns.server_address content); [done|]. by intros [= <-].
    + by intros [= <-].
  - destruct (exn_class_of e); by intros [= <-].
Qed.

(** X2: the messages of the lookup.  A missing file gives
    [constants.js file not found]; any other failure to read gives
    [Error reading constants.js: ] followed by the text of that failure;
    and when the file is read but holds no URL, the function's own
    [CRAWL4AI_DOCKER_SERVER not found in constants.js] is caught by its
    own [except Exception] clause and comes out behind the same
    prefix. *)
Theorem server_url_failure_messages (f : file_read) :
  (∀ e, f = ReadFails e → exn_class_of e = FileNotFoundError →
     result (get_crawl4ai_server_url f)
     = Raise (Exn PyException "constants.js file not found"))
  ∧ (∀ e, f = ReadFails e → exn_class_of e ≠ FileNotFoundError →
       result (get_crawl4ai_server_url f)
       = Raise (Exn PyException ("Error reading constants.js: " +:+ exn_str e)))
  ∧ (∀ content e, f = ReadOk content →
       result (get_crawl4ai_server_url f) = Raise e →
       e = Exn PyException
             "Error reading constants.js: CRAWL4AI_DOCKER_SERVER not found in constants.js").
Proof.
  split; [|split].
  - intros e -> Hc. unfold get_crawl4ai_server_url. cbn. by rewrite Hc.
  - intros e -> Hc. unfold get_crawl4ai_server_url. cbn.
    by destruct (exn_class_of e).
  - intros content e ->. unfold get_crawl4ai_server_url. cbn.
    destruct (Re.search Patterns.server_constant content); [done|].
    destruct (Re.search Patterns.server_export content).
    + destruct (Re.search Patterns.server_address content); [done|]. by intros [= <-].
    + by intros [= <-].
Qed.

(** X3: a URL that the lookup returns stands in the file between two
    quote characters, is not empty and has no quote character in it. *)
Theorem server_url_is_quoted_text (f : file_read) (u : string) :
  result (get_crawl4ai_server_url f) = Ret u →
  u ≠ "" ∧ all_chars (Re.in_class Patterns.not_quote) u = true
  ∧ ∃ content before after q1 q2,
      f = ReadOk content ∧ is_quote q1 ∧ is_quote q2
      ∧ content = before +:+ String q1 (u +:+ String q2 after).
Proof.
  unfold get_crawl4ai_server_url. destruct f as [content|e]; cbn;
    [|by destruct (exn_class_of e)].
  destruct (Re.search Patterns.server_constant content) as [m|] eqn:Hc.
  - cbn. intros [= <-].
    destruct (server_constant_capture _ _ Hc)
      as (before & ws1 & ws2 & q1 & q2 & value & rest & -> & _ & _ & Hq1 & Hq2 & Hne & Hv & ->).
    cbn [Re.group1]. split; [done|]. split; [done|].
    eexists _, (before +:+ "const CRAWL4AI_DOCKER_SERVER" +:+ ws1 +:+ "=" +:+ ws2), rest, q1, q2.
    split; [done|]. split; [done|]. split; [done|]. by rewrite !append_assoc.
  - destruct (Re.search Patterns.server_export content); [|done].
    destruct (Re.search Patterns.server_address content) as [m|] eqn:Ha; [|done].
    cbn. intros [= <-].
    apply search_found in Ha as (before & text & rest & -> & Hm & _).
    destruct (server_address_sound _ _ _ Hm) as (body & Hq & Hsub & ->).
    destruct Hq as (q1 & q2 & after & Hq1 & Hq2 & -> & Hbody). cbn [Re.group1].
    split; [|split; [done|]].
    + destruct Hsub as (a & b & ->). by destruct a.
    + by exists (before +:+ String q1 (body +:+ String q2 after)), before, after, q1, q2.
Qed.

(** X4: the text that the extensions pattern captures in a URL follows
    an [extensions=], is not empty, has no [&] in it and runs up to the
    next [&] or to the end of the URL. *)
Theorem extensions_value_shape (url : string) (m : Re.capture) :
  Re.search Patterns.extensions url = Some m →
  ∃ before value rest,
    url = before +:+ "extensions=" +:+ value +:+ rest
    ∧ value ≠ "" ∧ all_chars (Re.in_class Patterns.not_amp) value = true
    ∧ (rest = "" ∨ ∃ rest', rest = String "&" rest')
    ∧ Re.group1 m = value.
Proof.
  intros (before & value & rest & -> & Hne & Hv & Hend & ->)%extensions_capture.
  by exists before, value, rest.
Qed.

End LookupExtras.

Lemma server_url_is_quoted_text_witness :
  "http://129.151.250.86:11235" ≠ ""
  ∧ Text.all_chars (Re.in_class Patterns.not_quote) "http://129.151.250.86:11235" = true
  ∧ ∃ content before after q1 q2,
      ReadOk Examples.constants_text = ReadOk content ∧ is_quote q1 ∧ is_quote q2
      ∧ content = before +:+ String q1 ("http://129.151.250.86:11235" +:+ String q2 after).
Proof.
  apply (server_url_is_quoted_text (ReadOk Examples.constants_text)
           "http://129.151.250.86:11235").
  vm_compute. reflexivity.
Defined.

Lemma extensions_value_shape_witness :
  ∃ before value rest,
    "https://x/?extensions=5&a=1" = before +:+ "extensions=" +:+ value +:+ rest
    ∧ value ≠ "" ∧ Text.all_chars (Re.in_class Patterns.not_amp) value = true
    ∧ (rest = "" ∨ ∃ rest', rest = String "&" rest')
    ∧ Re.group1 (Re.CapDone "5") = value.
Proof.
  apply (extensions_value_shape "https://x/?extensions=5&a=1" (Re.CapDone "5")).
  vm_compute. reflexivity.
Defined.

Section ScanExtras.
Import IOFacts Text TextFacts ReFacts PatternFacts.

Variable unquote : string → string.
Variable json_loads : string → loaded.
Variable py_repr : json → string.

Local Abbreviation hash_of := (persisted_query_hash unquote json_loads).
Local Abbreviation outcome_of := (first_outcome unquote json_loads).
Local Abbreviation priority_pass := (scan_priority unquote json_loads py_repr).
Local Abbreviation two_passes := (hash_scan unquote json_loads py_repr).

Local Abbreviation loads_raised requests e :=
  (∃ request m name msg,
     request ∈ requests
     ∧ Re.search Patterns.extensions (url_of request) = Some m
     ∧ json_loads (unquote (Re.group1 m)) = OtherLoadsError name msg
     ∧ e = Exn (OtherError name) msg).

Lemma loads_outcome_raises l e :
  loads_outcome l = Raise e →
  (∃ msg, l = DecodeError msg ∧ e = Exn JSONDecodeError msg)
  ∨ (∃ name msg, l = OtherLoadsError name msg ∧ e = Exn (OtherError name) msg).
Proof.
  destruct l as [v|msg|name msg]; cbn; [done| |]; intros [= <-]; [left|right]; eauto.
Qed.

(** The exceptions of a [try] block: the one that [json.loads] raised on
    the decoded extensions, or a [TypeError]. *)
Lemma try_block_raises url e :
  hash_of url = Raise e →
  (∃ m, Re.search Patterns.extensions url = Some m
        ∧ loads_outcome (json_loads (unquote (Re.group1 m))) = Raise e)
  ∨ exn_class_of e = TypeError.
Proof.
  unfold persisted_query_hash.
  destruct (contains "extensions=" url); [|done].
  destruct (Re.search Patterns.extensions url) as [m|]; [|done].
  destruct (json_loads (unquote (Re.group1 m))) as [v|msg|name msg] eqn:Hv;
    [|cbn; intros [= <-]; left; exists m; split; [reflexivity|by rewrite Hv]..].
  intros He. right. revert He.
  destruct v as [| | | | |l|data]; cbn; try (by intros [= <-]).
  - destruct (contains _ _); cbn; [by intros [= <-]|done].
  - destruct (existsb _ l); cbn; [by intros [= <-]|done].
  - destruct (dict_get "persistedQuery" data) as [q|] eqn:Hq.
    + rewrite bool_decide_eq_true_2 by eauto. cbn.
      destruct q as [| | | | |l|query]; cbn; try (by intros [= <-]).
      * destruct (contains _ _); cbn; [by intros [= <-]|done].
      * destruct (existsb _ l); cbn; [by intros [= <-]|done].
      * destruct (dict_get "sha256Hash" query) as [x|] eqn:Hx.
        -- rewrite bool_decide_eq_true_2 by eauto. done.
        -- rewrite bool_decide_eq_false_2 by (by intros [? ?]). done.
    + rewrite bool_decide_eq_false_2 by (by intros [? ?]). done.
Qed.

(** An exception of [json.loads] is the exception of the [try] block. *)
Lemma try_block_refused url m e :
  Re.search Patterns.extensions url = Some m →
  loads_outcome (json_loads (unquote (Re.group1 m))) = Raise e →
  hash_of url = Raise e.
Proof.
  intros Hm Hj. unfold persisted_query_hash. rewrite (extensions_found _ _ Hm), Hm.
  destruct (json_loads (unquote (Re.group1 m))); cbn in Hj |- *; [discriminate|congruence..].
Qed.


Lemma first_outcome_raises requests e :
  outcome_of requests = Raise e → exn_class_of e = TypeError ∨ loads_raised requests e.
Proof.
  induction requests as [|request rest IH]; [done|]. cbn [first_outcome].
  assert (exn_class_of e = TypeError ∨ loads_raised rest e →
          exn_class_of e = TypeError ∨ loads_raised (request :: rest) e) as Hrest.
  { intros [Ht|(r & m & name & msg & Hin & H)]; [by left|right].
    exists r, m, name, msg. split; [by right|done]. }
  destruct (hash_of (url_of request)) as [[h|]|e'] eqn:Hp; [done|by intros ?%IH%Hrest|].
  destruct (decode_or_key_error (exn_class_of e')) eqn:Hd; [by intros ?%IH%Hrest|].
  intros [= ->]. destruct (try_block_raises _ _ Hp) as [(m & Hm & Hj)|Ht]; [|by left].
  destruct (loads_outcome_raises _ _ Hj) as [(msg & _ & ->)|(name & msg & Hl & ->)]; [done|].
  right. exists request, m, name, msg. split; [left|done].
Qed.

Lemma scan_priority_raises ops requests e :
  result (priority_pass ops requests) = Raise e →
  exn_class_of e = TypeError ∨ loads_raised requests e.
Proof.
  induction ops as [|op ops IH]; [done|]. rewrite result_scan_priority_cons.
  destruct (first_outcome _ _ (List.filter (matches_operation op) requests))
    as [[h|]|e'] eqn:Ho; [done|done|].
  intros [= ->]. apply first_outcome_raises in Ho as [Ht|(r & m & name & msg & Hin & H)];
    [by left|right].
  exists r, m, name, msg. split; [|done].
  apply list_elem_of_In in Hin. apply filter_In in Hin as [Hin _]. by apply list_elem_of_In.
Qed.

(** How the two passes can raise. *)
Lemma hash_scan_raises (requests : list request) (e : exn) :
  two_passes requests = Raise e →
  exn_class_of e = TypeError
  ∨ e = Exn PyException "Could not extract GraphQL hash from any network requests"
  ∨ loads_raised requests e.
Proof.
  unfold hash_scan.
  destruct (result (priority_pass priority_operations requests)) as [[h|]|e'] eqn:Hp;
    [done| |].
  - rewrite result_scan_all.
    destruct (outcome_of requests) as [[h|]|e'] eqn:Ho; [done| |].
    + intros [= <-]. right. by left.
    + intros [= ->]. apply first_outcome_raises in Ho as [?|?]; [by left|by right; right].
  - intros [= ->]. apply scan_priority_raises in Hp as [?|?]; [by left|by right; right].
Qed.


End ScanExtras.

Section ListExtras.
Import Text TextFacts ReFacts.

Lemma found_operations_acc (requests : list request) (acc : list string) (op : string) :
  let found :=
    fold_left
      (λ found_operations request,
         match Re.search Patterns.operation_name (url_of request) with
         | Some operation_match =>
             let operation_name := Re.group1 operation_match in
             if bool_decide (operation_name ∈ found_operations)
             then found_operations
             else found_operations ++ [operation_name]
         | None => found_operations
         end)
      requests acc in
  (NoDup acc → NoDup found)
  ∧ (op ∈ found ↔
     op ∈ acc ∨ ∃ request m, request ∈ requests
                 ∧ Re.search Patterns.operation_name (url_of request) = Some m
                 ∧ Re.group1 m = op).
Proof.
  revert acc. induction requests as [|request rest IH]; intros acc; cbn [fold_left].
  - split; [done|]. split; [by left|]. intros [H|(r & m & Hr & _)]; [done|].
    by apply elem_of_nil in Hr.
  - destruct (Re.search Patterns.operation_name (url_of request)) as [m|] eqn:Hm.
    + cbn zeta. destruct (bool_decide_reflect (Re.group1 m ∈ acc)) as [Hin|Hnin].
      * destruct (IH acc) as [Hnd Hmem]. split; [done|]. cbn zeta in Hmem. rewrite Hmem.
        split.
        -- intros [H|(r & m' & Hr & Hs & Hg)]; [by left|].
           right. exists r, m'. split; [by right|done].
        -- intros [H|(r & m' & [->|Hr]%elem_of_cons & Hs & Hg)]; [by left| |].
           ++ left. rewrite Hm in Hs. injection Hs as <-. by rewrite <- Hg.
           ++ right. by exists r, m'.
      * destruct (IH (acc ++ [Re.group1 m])) as [Hnd Hmem]. split.
        -- intros Ha. apply Hnd. apply NoDup_app. split; [done|].
           split; [|apply NoDup_singleton].
           intros x Hx ->%list_elem_of_singleton. done.
        -- cbn zeta in Hmem. rewrite Hmem, elem_of_app, list_elem_of_singleton. split.
           ++ intros [[H| ->]|(r & m' & Hr & Hs & Hg)]; [by left| |].
              ** right. exists request, m. split; [left|done].
              ** right. exists r, m'. split; [by right|done].
           ++ intros [H|(r & m' & [->|Hr]%elem_of_cons & Hs & Hg)]; [by left;left| |].
              ** left. right. rewrite Hm in Hs. by injection Hs as <-.
              ** right. by exists r, m'.
    + destruct (IH acc) as [Hnd Hmem]. split; [done|]. cbn zeta in Hmem. rewrite Hmem.
      split.
      * intros [H|(r & m' & Hr & Hs & Hg)]; [by left|].
        right. exists r, m'. split; [by right|done].
      * intros [H|(r & m' & [->|Hr]%elem_of_cons & Hs & Hg)]; [by left| |].
        -- by rewrite Hm in Hs.
        -- right. by exists r, m'.
Qed.

(** X7: the operations listed for debugging hold no name twice, and a
    name is listed exactly when the operation-name pattern captures it
    in the URL of one of the GraphQL requests. *)
Theorem found_operations_distinct_and_exact (requests : list request) :
  NoDup (found_operations requests)
  ∧ ∀ op, op ∈ found_operations requests ↔
          ∃ request m, request ∈ requests
            ∧ Re.search Patterns.operation_name (url_of request) = Some m
            ∧ Re.group1 m = op.
Proof.
  unfold found_operations. split.
  - apply (found_operations_acc requests [] ""). apply NoDup_nil_2.
  - intros op. destruct (found_operations_acc requests [] op) as [_ Hmem].
    cbn zeta in Hmem. rewrite Hmem. split; [|by right].
    intros [H|H]; [by apply elem_of_nil in H|done].
Qed.

(** X8: filtering the GraphQL requests keeps the capture order: it
    works through a capture piece by piece, gives a sublist of the
    capture, and filtering twice changes nothing. *)
Theorem graphql_requests_keeps_order (network more : list request) :
  graphql_requests (network ++ more) = graphql_requests network ++ graphql_requests more
  ∧ graphql_requests network `sublist_of` network
  ∧ graphql_requests (graphql_requests network) = graphql_requests network.
Proof.
  rewrite !graphql_requests_filter. split; [apply List.filter_app|]. split.
  - induction network as [|r network IH]; [done|]. cbn [List.filter].
    destruct (is_graphql_request r); [by apply sublist_skip|by apply sublist_cons].
  - induction network as [|r network IH]; [done|]. cbn [List.filter].
    destruct (is_graphql_request r) eqn:Hr; [|done].
    cbn [List.filter]. by rewrite Hr, IH.
Qed.

End ListExtras.

Section RunExtras.
Import IOFacts Text TextFacts ReFacts PatternFacts.

Variable unquote : string → string.
Variable json_loads : string → loaded.
Variable py_repr : json → string.

Local Abbreviation hash_of := (persisted_query_hash unquote json_loads).
Local Abbreviation outcome_of := (first_outcome unquote json_loads).
Local Abbreviation run_extract := (extract_imdb_graphql_hash unquote json_loads py_repr).
Local Abbreviation two_passes := (hash_scan unquote json_loads py_repr).
Local Abbreviation select := (select_hash unquote json_loads).
Local Abbreviation shaped := (well_shaped unquote json_loads).

Lemma stdout_bind {A B} (m : io A) (f : A → io B) :
  stdout (m ≫= f)
  = match result m with
    | Ret a => stdout m ++ stdout (f a)
    | Raise _ => stdout m
    end.
Proof. unfold mbind, io_bind. by destruct (result m). Qed.

(** A handler that prints a line and raises again. *)
Lemma try_log_reraise {A} (m : io A) (line : exn → string) e :
  result (try_except m any_exception (λ e, print (line e);; raise e)) = Raise e →
  result m = Raise e
  ∧ stdout (try_except m any_exception (λ e, print (line e);; raise e))
    = stdout m ++ [line e].
Proof.
  unfold try_except. destruct (result m) as [a|e'] eqn:Hm.
  - intros He. congruence.
  - cbn. intros [= ->]. done.
Qed.

(** X9: when the server URL cannot be obtained, the extraction prints
    one line, [Error getting server URL from constants: ] with the text
    of the exception, and raises that same exception; the crawling
    client is not used, so nothing else is printed. *)
Theorem url_failure_stops_extraction tid (w : world) (e : exn) :
  result (get_crawl4ai_server_url (constants_js w)) = Raise e →
  run_extract tid w
  = IO ["Error getting server URL from constants: " +:+ exn_str e] (Raise e).
Proof.
  intros He. pose proof (get_url_silent (constants_js w)) as Hs.
  unfold extract_imdb_graphql_hash.
  destruct (get_crawl4ai_server_url (constants_js w)) as [out res].
  cbn in He, Hs. subst out res. reflexivity.
Qed.

(** X10: when the server URL is obtained and the extraction raises [e],
    the output starts with [Using Crawl4AI server: ] and the URL and
    ends with [Error during hash extraction: ] and the text of [e]:
    every exception of the crawl and of the scan is logged once, last,
    and raised again unchanged. *)
Theorem crawl_failure_is_logged_last tid (w : world) (u : string) (e : exn) :
  result (get_crawl4ai_server_url (constants_js w)) = Ret u →
  result (run_extract tid w) = Raise e →
  ∃ lines,
    stdout (run_extract tid w)
    = ("Using Crawl4AI server: " +:+ u) :: lines
      ++ ["Error during hash extraction: " +:+ exn_str e].
Proof.
  intros Hu. pose proof (get_url_silent (constants_js w)) as Hs.
  unfold extract_imdb_graphql_hash.
  lazymatch goal with
  | |- context [mbind (λ _, ?second) ?first] => set (crawl_part := second); set (url_part := first)
  end.
  assert (url_part = IO ["Using Crawl4AI server: " +:+ u] (Ret u)) as ->.
  { subst url_part. destruct (get_crawl4ai_server_url (constants_js w)) as [out res].
    cbn in Hu, Hs. by subst out res. }
  assert (result crawl_part = Raise e →
          ∃ lines, stdout crawl_part
                   = lines ++ ["Error during hash extraction: " +:+ exn_str e]) as Hlog.
  { subst crawl_part. intros [_ ->]%try_log_reraise. by eexists. }
  clearbody crawl_part. rewrite result_bind, stdout_bind. cbn [result stdout mbind outcome_bind].
  intros [lines ->]%Hlog. by exists lines.
Qed.

(** X11: of a list of results only the first is used: a crawl that
    returns the list [r :: others] gives the same output and the same
    result as a crawl that returns [r] alone. *)
Theorem only_first_result_is_used tid (c : file_read) (r : CrawlResult)
    (others : list CrawlResult) :
  run_extract tid {| constants_js := c; crawl4ai := CrawlReturns (CrawlList (r :: others)) |}
  = run_extract tid {| constants_js := c; crawl4ai := CrawlReturns (CrawlSingle r) |}.
Proof. reflexivity. Qed.

(** X12: the checks on what the crawl returned, in their order.  No
    result at all, or an empty list, raises [Crawl failed - no results
    returned]; an unsuccessful first result raises [Failed to load IMDb
    page: ] with its error message ([None] when it has none), whatever
    was captured; a successful one without captured events raises [No
    network requests captured].  The message [Crawl returned empty
    results] is never raised: an empty list is caught by the first
    check. *)
Theorem crawl_result_checks tid (w : world) (u : string) :
  result (get_crawl4ai_server_url (constants_js w)) = Ret u →
  (no_results w →
     result (run_extract tid w)
     = Raise (Exn PyException "Crawl failed - no results returned"))
  ∧ (∀ r, first_result w = Some r → success r = false →
       result (run_extract tid w)
       = Raise (Exn PyException ("Failed to load IMDb page: "
                                 +:+ default "None" (error_message r))))
  ∧ (∀ r, first_result w = Some r → success r = true → captured_events w = [] →
       result (run_extract tid w) = Raise (Exn PyException "No network requests captured"))
  ∧ (∀ v, crawl4ai w = CrawlReturns v →
       result (run_extract tid w) ≠ Raise (Exn PyException "Crawl returned empty results")).
Proof.
  intros Hu. rewrite result_extract, Hu. unfold no_results, first_result, captured_events.
  split; [|split; [|split]].
  - by intros [-> | ->].
  - intros r. destruct (crawl4ai w) as [e|e|[|[|r' l]|r']]; try done;
      by intros [= ->] ->.
  - intros r. unfold first_result.
    destruct (crawl4ai w) as [e|e|[|[|r' l]|r']]; try done;
      (intros [= ->] ->; by destruct (network_requests r) as [[|q l']|]).
  - intros v ->. destruct v as [|[|r l]|r]; try done;
      (destruct (success r); [|done];
       destruct (network_requests r) as [[|q l']|]; try done;
       intros [Ht|[He|(rq & m & name & msg & _ & _ & _ & He)]]%hash_scan_raises; done).
Qed.

(** X13: a request whose URL has no extensions parameter, whose
    extensions are not JSON, or whose extensions are an object without
    [persistedQuery] or with a [persistedQuery] object without
    [sha256Hash], has no effect on the result: the run ends the same way
    with it as without it, as long as something else was captured. *)
Theorem malformed_request_changes_nothing tid (c : file_read) (msg : option string)
    (before after : list request) (skip : request) :
  ¬ substring_of "extensions=" (url_of skip)
  ∨ (∃ m text, Re.search Patterns.extensions (url_of skip) = Some m
               ∧ json_loads (unquote (Re.group1 m)) = DecodeError text)
  ∨ (∃ m data, Re.search Patterns.extensions (url_of skip) = Some m
               ∧ json_loads (unquote (Re.group1 m)) = Loaded (JDict data)
               ∧ (dict_get "persistedQuery" data = None
                  ∨ ∃ query, dict_get "persistedQuery" data = Some (JDict query)
                             ∧ dict_get "sha256Hash" query = None)) →
  before ++ after ≠ [] →
  result (run_extract tid
            {| constants_js := c;
               crawl4ai := CrawlReturns (CrawlSingle
                 {| success := true; error_message := msg;
                    network_requests := Some (before ++ skip :: after) |}) |})
  = result (run_extract tid
              {| constants_js := c;
                 crawl4ai := CrawlReturns (CrawlSingle
                   {| success := true; error_message := msg;
                      network_requests := Some (before ++ after) |}) |}).
Proof.
  intros Hs%malformed_request_skipped Hne. rewrite !result_extract.
  cbn [constants_js crawl4ai success network_requests].
  destruct (result (get_crawl4ai_server_url c)); [|done].
  assert (two_passes (graphql_requests (before ++ skip :: after))
          = two_passes (graphql_requests (before ++ after))) as Heq.
  { rewrite !graphql_requests_filter, !List.filter_app. cbn [List.filter].
    destruct (is_graphql_request skip); [|done]. by apply hash_scan_skip. }
  destruct (before ++ after) as [|q l] eqn:Hl; [done|]. rewrite <- Heq.
  by destruct before.
Qed.

(** X15: a GraphQL request of the operation WatchListPage that stands
    first among the GraphQL requests and whose extensions decode to
    null, a boolean or a number, or to an object whose [persistedQuery]
    is one of these, ends the extraction with a [TypeError], whatever
    the requests after it carry. *)
Theorem scalar_extensions_abort_extraction tid (w : world) (u : string) (r : CrawlResult)
    (head : request) (rest : list request) (m : Re.capture) (v : json) :
  result (get_crawl4ai_server_url (constants_js w)) = Ret u →
  first_result w = Some r → success r = true →
  graphql_requests (captured_events w) = head :: rest →
  matches_operation "WatchListPage" head = true →
  Re.search Patterns.extensions (url_of head) = Some m →
  json_loads (unquote (Re.group1 m)) = Loaded v →
  scalar v ∨ (∃ data q, v = JDict data ∧ dict_get "persistedQuery" data = Some q ∧ scalar q) →
  ∃ e, result (run_extract tid w) = Raise e ∧ exn_class_of e = TypeError.
Proof.
  intros Hu Hr Hs Hg Hm Hx Hv Hsc.
  assert (captured_events w ≠ []) as Hc by (intros Hn; by rewrite Hn in Hg).
  rewrite (extract_scans _ _ _ tid w u r Hu Hr Hs Hc), Hg.
  assert (∃ e, hash_of (url_of head) = Raise e ∧ exn_class_of e = TypeError) as (e & He & Ht).
  { unfold persisted_query_hash. rewrite (extensions_found _ _ Hx), Hx, Hv.
    destruct Hsc as [Hsc|(data & q & -> & Hq & Hsc)].
    - destruct v; try done; by eexists.
    - cbn. rewrite Hq, bool_decide_eq_true_2 by eauto. cbn.
      destruct q; try done; by eexists. }
  exists e. split; [|done]. unfold hash_scan, priority_operations.
  rewrite result_scan_priority_cons. cbn [List.filter]. rewrite Hm.
  cbn [first_outcome]. rewrite He, Ht. done.
Qed.

(** X17: an exception of [json.loads] that is no [JSONDecodeError]
    ends the extraction: when the first GraphQL request is of the
    operation WatchListPage and [json.loads] raises on its decoded
    extensions an exception of another class, as it does with
    [ValueError] on an integer literal of more than 4300 digits, the
    [except] clause of the scan lets it through and the extraction
    raises that exception, whatever the requests after it carry. *)
Theorem loads_error_aborts_extraction tid (w : world) (u : string) (r : CrawlResult)
    (head : request) (rest : list request) (m : Re.capture) (name msg : string) :
  result (get_crawl4ai_server_url (constants_js w)) = Ret u →
  first_result w = Some r → success r = true →
  graphql_requests (captured_events w) = head :: rest →
  matches_operation "WatchListPage" head = true →
  Re.search Patterns.extensions (url_of head) = Some m →
  json_loads (unquote (Re.group1 m)) = OtherLoadsError name msg →
  result (run_extract tid w) = Raise (Exn (OtherError name) msg).
Proof.
  intros Hu Hr Hs Hg Hm Hx Hv.
  assert (captured_events w ≠ []) as Hc by (intros Hn; by rewrite Hn in Hg).
  rewrite (extract_scans _ _ _ tid w u r Hu Hr Hs Hc), Hg.
  assert (hash_of (url_of head) = Raise (Exn (OtherError name) msg)) as He.
  { unfold persisted_query_hash. by rewrite (extensions_found _ _ Hx), Hx, Hv. }
  unfold hash_scan, priority_operations.
  rewrite result_scan_priority_cons. cbn [List.filter]. rewrite Hm.
  cbn [first_outcome]. by rewrite He.
Qed.

End RunExtras.

(** ** Runs for the further properties *)



Lemma url_failure_stops_extraction_witness :
  Examples.extract Examples.missing_file
  = IO ["Error getting server URL from constants: constants.js file not found"]
       (Raise (Exn PyException "constants.js file not found")).
Proof.
  apply (url_failure_stops_extraction Reference.unquote Reference.json_loads
           Reference.py_repr "ur195879360" Examples.missing_file
           (Exn PyException "constants.js file not found")).
  vm_compute. reflexivity.
Defined.

Lemma crawl_failure_is_logged_last_witness :
  ∃ lines,
    stdout (Examples.extract Examples.null_then_refiner)
    = "Using Crawl4AI server: http://129.151.250.86:11235" :: lines
      ++ ["Error during hash extraction: argument of type 'NoneType' is not iterable"].
Proof.
  apply (crawl_failure_is_logged_last Reference.unquote Reference.json_loads
           Reference.py_repr "ur195879360" Examples.null_then_refiner
           "http://129.151.250.86:11235"
           (Exn TypeError "argument of type 'NoneType' is not iterable")).
  - vm_compute. reflexivity.
  - vm_compute. reflexivity.
Defined.

Lemma crawl_result_checks_witness :
  (no_results (Examples.crawled []) →
     result (Examples.extract (Examples.crawled []))
     = Raise (Exn PyException "Crawl failed - no results returned"))
  ∧ (∀ r, first_result (Examples.crawled []) = Some r → success r = false →
       result (Examples.extract (Examples.crawled []))
       = Raise (Exn PyException ("Failed to load IMDb page: "
                                 +:+ default "None" (error_message r))))
  ∧ (∀ r, first_result (Examples.crawled []) = Some r → success r = true →
       captured_events (Examples.crawled []) = [] →
       result (Examples.extract (Examples.crawled []))
       = Raise (Exn PyException "No network requests captured"))
  ∧ (∀ v, crawl4ai (Examples.crawled []) = CrawlReturns v →
       result (Examples.extract (Examples.crawled []))
       ≠ Raise (Exn PyException "Crawl returned empty results")).
Proof.
  apply (crawl_result_checks Reference.unquote Reference.json_loads Reference.py_repr
           "ur195879360" (Examples.crawled []) "http://129.151.250.86:11235").
  vm_compute. reflexivity.
Defined.

Lemma malformed_request_changes_nothing_witness :
  result (Examples.extract
            (Examples.crawled
               ([] ++ Examples.event "request"
                        "https://api.graphql.imdb.com/?operationName=WatchListPage&extensions=%7B"
                   :: [Examples.event "request" Examples.refiner_url])))
  = result (Examples.extract
              (Examples.crawled ([] ++ [Examples.event "request" Examples.refiner_url]))).
Proof.
  apply (malformed_request_changes_nothing Reference.unquote Reference.json_loads
           Reference.py_repr "ur195879360" (ReadOk Examples.constants_text) None []
           [Examples.event "request" Examples.refiner_url]
           (Examples.event "request"
              "https://api.graphql.imdb.com/?operationName=WatchListPage&extensions=%7B")).
  - right. left.
    exists (Re.CapDone "%7B"), "Expecting property name enclosed in double quotes".
    split; vm_compute; reflexivity.
  - discriminate.
Defined.

Lemma scalar_extensions_abort_extraction_witness :
  ∃ e, result (Examples.extract Examples.null_then_refiner) = Raise e
       ∧ exn_class_of e = TypeError.
Proof.
  apply (scalar_extensions_abort_extraction Reference.unquote Reference.json_loads
           Reference.py_repr "ur195879360" Examples.null_then_refiner
           "http://129.151.250.86:11235"
           {| success := true; error_message := None;
              network_requests :=
                Some [Examples.event "request" Examples.null_query_url;
                      Examples.event "request" Examples.refiner_url] |}
           (Examples.event "request" Examples.null_query_url)
           [Examples.event "request" Examples.refiner_url]
           (Re.CapDone "%7B%22persistedQuery%22%3Anull%7D")
           (JDict [("persistedQuery", JNull)])).
  - vm_compute. reflexivity.
  - reflexivity.
  - reflexivity.
  - vm_compute. reflexivity.
  - vm_compute. reflexivity.
  - vm_compute. reflexivity.
  - vm_compute. reflexivity.
  - right. exists [("persistedQuery", JNull)], JNull.
    split; [reflexivity|]. split; [reflexivity|exact I].
Defined.


Lemma loads_error_aborts_extraction_witness :
  result (Examples.extract
            (Examples.crawled [Examples.event "request" Examples.long_number_url;
                               Examples.event "request" Examples.refiner_url]))
  = Raise (Exn (OtherError "ValueError")
             "Exceeds the limit (4300 digits) for integer string conversion: value has 4301 digits; use sys.set_int_max_str_digits() to increase the limit").
Proof.
  apply (loads_error_aborts_extraction Reference.unquote Reference.json_loads
           Reference.py_repr "ur195879360"
           (Examples.crawled [Examples.event "request" Examples.long_number_url;
                              Examples.event "request" Examples.refiner_url])
           "http://129.151.250.86:11235"
           {| success := true; error_message := None;
              network_requests :=
                Some [Examples.event "request" Examples.long_number_url;
                      Examples.event "request" Examples.refiner_url] |}
           (Examples.event "request" Examples.long_number_url)
           [Examples.event "request" Examples.refiner_url]
           (Re.CapDone (String.concat "" (replicate 4301 "7")))).
  - vm_compute. reflexivity.
  - reflexivity.
  - reflexivity.
  - vm_compute. reflexivity.
  - vm_compute. reflexivity.
  - vm_compute. reflexivity.
  - vm_compute. reflexivity.
Defined.
